(** * Weather data pipeline: a shallow embedding of [weather_core.py],
      [fetch.py] and [app_streamlit.py]

    The pipeline fetches hourly observations, normalises them into a table
    indexed by UTC instant, caches the table as CSV, and derives daily
    statistics and a rolling z-score.

    Modelling conventions.
    - A float64 cell is [num]: [NaN] or an exact rational.  Arithmetic is
      exact; IEEE rounding is outside the model, the special values that the
      code relies on (missing, division by zero) are explicit.
    - An instant is an integer count of nanoseconds since the epoch, [None]
      is pandas' [NaT].
    - A [DataFrame] is an index and an ordered list of named, typed columns.
    - A Python exception is a value of [result]; [try]/[except] is a [match].
    - What pandas does with text (parsing a date, parsing a number, printing
      a timestamp, the zone database) is the interface [Pandas]; the
      functions of the repository are defined over any implementation of it,
      and [reference_pandas] is a small implementation used in examples. *)

From Stdlib Require Import ZArith QArith Qround List String Ascii Bool Lia.
From Stdlib Require Import Sorted Permutation DecimalString.
Import ListNotations.

Close Scope Q_scope.
Open Scope string_scope.
Open Scope list_scope.

(* ================================================================= *)
(** ** Exceptions *)

Inductive exc_class :=
| ValueError | KeyError | TypeError | AttributeError | RequestException.

Inductive exn := PyExc (cls : exc_class) (msg : string).

Definition exn_class (e : exn) : exc_class := let (c, _) := e in c.
Definition exn_str (e : exn) : string := let (_, m) := e in m.

Inductive result (A : Type) :=
| Ok (a : A)
| Raise (e : exn).
Arguments Ok {A} a.
Arguments Raise {A} e.

Definition bind {A B} (r : result A) (k : A -> result B) : result B :=
  match r with
  | Ok a => k a
  | Raise e => Raise e
  end.

Notation "x <- r ;; k" := (bind r (fun x => k))
  (at level 61, r at next level, right associativity).

Definition raises {A} (r : result A) : Prop := exists e, r = Raise e.
Definition returns {A} (r : result A) : Prop := exists a, r = Ok a.

(* ================================================================= *)
(** ** Scalars *)

(** A float64 value. *)
Inductive num :=
| NaN
| Val (q : Q).

(** A Python scalar as it sits in a JSON array or an object column. *)
Inductive cell :=
| CNull
| CNum (q : Q)
| CStr (s : string)
| CTimestamp (t : Z).

Definition Timestamp := option Z.

Definition UTC : string := "UTC".

Definition notna_num (v : num) : bool :=
  match v with NaN => false | Val _ => true end.

Definition notna_cell (c : cell) : bool :=
  match c with CNull => false | _ => true end.

Definition notna_ts (t : Timestamp) : bool :=
  match t with None => false | Some _ => true end.

(* ================================================================= *)
(** ** Tables *)

Inductive Column :=
| Float64 (vals : list num)
| Object (vals : list cell)
| Datetime64 (tz : option string) (vals : list Timestamp).

Inductive Index :=
| RangeIndex (n : nat)
| DatetimeIndex (name : option string) (tz : option string) (vals : list Timestamp)
| PlainIndex (name : option string) (vals : list cell).

Record DataFrame := mkFrame {
  index : Index;
  columns : list (string * Column)
}.

(** [pd.DataFrame()] *)
Definition empty_frame : DataFrame := mkFrame (RangeIndex 0) [].

Definition col_len (c : Column) : nat :=
  match c with
  | Float64 v => List.length v
  | Object v => List.length v
  | Datetime64 _ v => List.length v
  end.

Definition nrows (df : DataFrame) : nat :=
  match index df with
  | RangeIndex n => n
  | DatetimeIndex _ _ v => List.length v
  | PlainIndex _ v => List.length v
  end.

(** [df.empty]: no rows or no columns. *)
Definition empty (df : DataFrame) : bool :=
  (nrows df =? 0)%nat || (List.length (columns df) =? 0)%nat.

Fixpoint lookup {A} (k : string) (l : list (string * A)) : option A :=
  match l with
  | [] => None
  | (k', v) :: rest => if String.eqb k k' then Some v else lookup k rest
  end.

Definition has_key {A} (k : string) (l : list (string * A)) : bool :=
  match lookup k l with Some _ => true | None => false end.

Definition col_names (df : DataFrame) : list string := map fst (columns df).

(** [df[k] = c] on an existing column keeps its position. *)
Fixpoint set_col {A} (k : string) (c : A) (l : list (string * A)) : list (string * A) :=
  match l with
  | [] => [(k, c)]
  | (k', v) :: rest =>
      if String.eqb k k' then (k', c) :: rest else (k', v) :: set_col k c rest
  end.

Definition drop_col {A} (k : string) (l : list (string * A)) : list (string * A) :=
  filter (fun kv => negb (String.eqb k (fst kv))) l.

(** Every column is as long as the index. *)
Definition well_formed (df : DataFrame) : Prop :=
  Forall (fun kv => col_len (snd kv) = nrows df) (columns df).

(** [take]: the rows at the given positions, in that order. *)
Definition take {A} (d : A) (order : list nat) (l : list A) : list A :=
  map (fun i => nth i l d) order.

Definition take_col (order : list nat) (c : Column) : Column :=
  match c with
  | Float64 v => Float64 (take NaN order v)
  | Object v => Object (take CNull order v)
  | Datetime64 tz v => Datetime64 tz (take None order v)
  end.

(* ================================================================= *)
(** ** The pandas interface *)

Class Pandas := {
  (** [to_datetime] on one string: the instant, or [None] when the string
      does not parse. *)
  parse_datetime : string -> option Z;
  (** [to_datetime] on one number. *)
  datetime_of_number : Q -> option Z;
  (** [to_numeric] on one string. *)
  parse_number : string -> option Q;
  (** The zone database: offset from UTC of a zone at an instant. *)
  utc_offset : string -> Z -> Z;
  (** [to_datetime(series, errors="coerce")] without [utc=True]; it infers
      the zone of the result from the whole series and can raise. *)
  to_datetime_coerce : list cell -> result Column;
  (** [series.dt.tz_localize(None)]. *)
  dt_tz_localize_none : string -> list Timestamp -> result (list Timestamp);
  (** [str] of a timestamp and of a number. *)
  timestamp_str : option string -> Timestamp -> string;
  number_str : Q -> string
}.

(* ================================================================= *)
(** ** Sorting the index *)

(** Order of [sort_index] on instants: ascending, [NaT] last. *)
Definition key_le (a b : Timestamp) : bool :=
  match a, b with
  | Some x, Some y => (x <=? y)%Z
  | _, None => true
  | None, Some _ => false
  end.

Fixpoint insert_key (x : Timestamp * nat) (l : list (Timestamp * nat))
  : list (Timestamp * nat) :=
  match l with
  | [] => [x]
  | y :: rest =>
      if key_le (fst x) (fst y) then x :: l else y :: insert_key x rest
  end.

Fixpoint sort_keys (l : list (Timestamp * nat)) : list (Timestamp * nat) :=
  match l with
  | [] => []
  | x :: rest => insert_key x (sort_keys rest)
  end.

(** The positions of the rows in sorted order; rows with equal instants keep
    their relative order. *)
Definition argsort (keys : list Timestamp) : list nat :=
  map snd (sort_keys (combine keys (seq 0 (List.length keys)))).

Definition sort_index (df : DataFrame) : DataFrame :=
  match index df with
  | DatetimeIndex name tz vals =>
      let order := argsort vals in
      mkFrame (DatetimeIndex name tz (take None order vals))
              (map (fun kv => (fst kv, take_col order (snd kv))) (columns df))
  | _ => df
  end.

Definition cells_of_column (c : Column) : list cell :=
  match c with
  | Float64 v => map (fun x => match x with NaN => CNull | Val q => CNum q end) v
  | Object v => v
  | Datetime64 _ v =>
      map (fun t => match t with None => CNull | Some z => CTimestamp z end) v
  end.

(** [df.set_index(name)] *)
Definition set_index (name : string) (df : DataFrame) : result DataFrame :=
  match lookup name (columns df) with
  | None => Raise (PyExc KeyError name)
  | Some (Datetime64 tz vals) =>
      Ok (mkFrame (DatetimeIndex (Some name) tz vals) (drop_col name (columns df)))
  | Some c =>
      Ok (mkFrame (PlainIndex (Some name) (cells_of_column c))
                  (drop_col name (columns df)))
  end.

(* ================================================================= *)
(** ** Parser / Normalizer: [hourly_to_frame] *)

(** The request: the query parameters of the URL that [open_meteo_url]
    builds. *)
Record Query := mkQuery {
  q_latitude : Q;
  q_longitude : Q;
  q_hourly : list string;
  q_timezone : string;
  q_past_hours : Z;
  q_forecast_hours : Z;
  q_wind_speed_unit : string;
  q_precipitation_unit : string;
  q_temperature_unit : string
}.

(** The decoded response: its ["hourly"] object, a name-to-array mapping in
    key order, and the ["_query_url"] entry that the fetcher adds. *)
Record Payload := mkPayload {
  hourly : option (list (string * list cell));
  query_url : option Query
}.

(** [pd.DataFrame(dict)]: the arrays must have one length. *)
Definition pd_DataFrame (data : list (string * list cell)) : result DataFrame :=
  match data with
  | [] => Ok empty_frame
  | (_, c0) :: _ =>
      if forallb (fun kv => (List.length (snd kv) =? List.length c0)%nat) data
      then Ok (mkFrame (RangeIndex (List.length c0))
                       (map (fun kv => (fst kv, Object (snd kv))) data))
      else Raise (PyExc ValueError "All arrays must be of the same length")
  end.

Section Normalizer.
Context {P : Pandas}.

(** [pd.to_datetime(x, utc=True, errors="coerce")] on one cell. *)
Definition to_datetime_utc_cell (c : cell) : Timestamp :=
  match c with
  | CNull => None
  | CNum q => datetime_of_number q
  | CStr s => parse_datetime s
  | CTimestamp t => Some t
  end.

Definition to_datetime_utc (c : Column) : Column :=
  match c with
  | Datetime64 _ v => Datetime64 (Some UTC) v
  | _ => Datetime64 (Some UTC) (map to_datetime_utc_cell (cells_of_column c))
  end.

(** [pd.to_numeric(x, errors="coerce")] on one cell. *)
Definition to_numeric_cell (c : cell) : num :=
  match c with
  | CNum q => Val q
  | CStr s => match parse_number s with Some q => Val q | None => NaN end
  | CNull => NaN
  | CTimestamp _ => NaN
  end.

(** int64 view of [NaT]. *)
Definition iNaT : Z := (- 2 ^ 63)%Z.

Definition to_numeric (c : Column) : Column :=
  match c with
  | Float64 v => Float64 v
  | Object v => Float64 (map to_numeric_cell v)
  | Datetime64 _ v =>
      Float64 (map (fun t => match t with
                             | Some z => Val (inject_Z z)
                             | None => Val (inject_Z iNaT)
                             end) v)
  end.

(** The argument of [hourly_to_frame] is annotated [dict]; the body only
    calls [.get("hourly", {})], which a DataFrame answers as well. *)
Inductive PyArg :=
| ArgDict (js : Payload)
| ArgFrame (df : DataFrame).

Inductive HourlyValue :=
| HBlock (cols : list (string * list cell))
| HSeries (c : Column).

Definition get_hourly (x : PyArg) : HourlyValue :=
  match x with
  | ArgDict js =>
      match hourly js with Some b => HBlock b | None => HBlock [] end
  | ArgFrame df =>
      match lookup "hourly" (columns df) with
      | Some c => HSeries c
      | None => HBlock []
      end
  end.

Definition hourly_to_frame (x : PyArg) : result DataFrame :=
  match get_hourly x with
  | HSeries _ =>
      Raise (PyExc ValueError "The truth value of a Series is ambiguous")
  | HBlock [] => Ok empty_frame
  | HBlock data =>
      df <- pd_DataFrame data ;;
      df <- match lookup "time" (columns df) with
            | Some c =>
                let df1 := mkFrame (index df)
                             (set_col "time" (to_datetime_utc c) (columns df)) in
                df2 <- set_index "time" df1 ;;
                Ok (sort_index df2)
            | None => Ok df
            end ;;
      Ok (mkFrame (index df)
                  (map (fun kv => (fst kv, to_numeric (snd kv))) (columns df)))
  end.

End Normalizer.

(* ================================================================= *)
(** ** Time Localizer: [to_local_naive] *)

Definition LOCAL_TZ : string := "America/Denver".
Definition DATA_DIR : string := "data".

Section Localizer.
Context {P : Pandas}.

(** [index.tz_convert(zone).tz_localize(None)]: wall-clock time in [zone]. *)
Definition tz_convert_localize_none (zone : string) (ix : Index) : result Index :=
  match ix with
  | DatetimeIndex name (Some _) vals =>
      Ok (DatetimeIndex name None
            (map (option_map (fun t => (t + utc_offset zone t)%Z)) vals))
  | DatetimeIndex _ None _ =>
      Raise (PyExc TypeError "Cannot convert tz-naive timestamps")
  | _ => Raise (PyExc AttributeError "tz_convert")
  end.

Definition to_local_naive (df_utc_idx : DataFrame) : result DataFrame :=
  if empty df_utc_idx then Ok df_utc_idx
  else
    ix <- tz_convert_localize_none LOCAL_TZ (index df_utc_idx) ;;
    Ok (mkFrame ix (columns df_utc_idx)).

End Localizer.

(* ================================================================= *)
(** ** Aggregator: [daily_summary] *)

(** The non-missing values of a column, in order. *)
Definition valid (vs : list num) : list Q :=
  flat_map (fun v => match v with Val q => [q] | NaN => [] end) vs.

Definition count_valid (vs : list num) : nat := List.length (valid vs).

Definition Qsum (l : list Q) : Q := fold_left Qplus l 0%Q.

Definition Qmin2 (a b : Q) : Q := if Qle_bool a b then a else b.
Definition Qmax2 (a b : Q) : Q := if Qle_bool a b then b else a.

Inductive stat := Mean | Min | Max | Sum.

Definition stat_name (s : stat) : string :=
  match s with
  | Mean => "mean"
  | Min => "min"
  | Max => "max"
  | Sum => "sum"
  end.

Definition mean (vs : list num) : num :=
  match valid vs with
  | [] => NaN
  | qs => Val (Qred (Qsum qs / inject_Z (Z.of_nat (List.length qs))))
  end.

Definition apply_stat (s : stat) (vs : list num) : num :=
  match s with
  | Mean => mean vs
  | Min => match valid vs with
           | [] => NaN
           | q :: qs => Val (fold_left Qmin2 qs q)
           end
  | Max => match valid vs with
           | [] => NaN
           | q :: qs => Val (fold_left Qmax2 qs q)
           end
  | Sum => Val (Qred (Qsum (valid vs)))
  end.

Definition day_ns : Z := (86400 * 10 ^ 9)%Z.

(** The calendar day of a wall-clock instant. *)
Definition day_of (t : Z) : Z := (t / day_ns)%Z.

Definition days_present (vals : list Timestamp) : list Z :=
  flat_map (fun t => match t with Some z => [day_of z] | None => [] end) vals.

(** The bins of [resample("D")]: every day from the first to the last one
    that occurs in the index.  An index without entries has no bins.  The
    edges of the bins are taken from the smallest and the largest instant;
    an index that holds missing instants only has neither, and the range of
    days cannot be built. *)
Definition day_bins (vals : list Timestamp) : result (list Z) :=
  match vals with
  | [] => Ok []
  | _ :: _ =>
      match days_present vals with
      | [] => Raise (PyExc ValueError "Neither `start` nor `end` can be NaT")
      | d :: ds =>
          let lo := fold_left Z.min ds d in
          let hi := fold_left Z.max ds d in
          Ok (map (fun k => (lo + Z.of_nat k)%Z) (seq 0 (Z.to_nat (hi - lo + 1))))
      end
  end.

(** The values of the rows that fall on day [d]. *)
Definition rows_of_day (d : Z) (vals : list Timestamp) (vs : list num) : list num :=
  flat_map (fun tv => match fst tv with
                      | Some z => if (day_of z =? d)%Z then [snd tv] else []
                      | None => []
                      end)
           (combine vals vs).

Definition agg_spec : list (string * list stat) :=
  [ ("temperature_2m", [Mean; Min; Max]);
    ("precipitation", [Sum]);
    ("wind_speed_10m", [Mean]) ].

Section Aggregator.
Context {P : Pandas}.

(** One entry of [resample("D").agg(spec)]; the result has two-level column
    labels. *)
Definition agg_column (vals : list Timestamp) (bins : list Z)
           (cols : list (string * Column)) (entry : string * list stat)
  : result (list ((string * string) * Column)) :=
  match lookup (fst entry) cols with
  | None => Raise (PyExc KeyError (fst entry))
  | Some (Float64 vs) =>
      Ok (map (fun s => ((fst entry, stat_name s),
                         Float64 (map (fun d => apply_stat s (rows_of_day d vals vs)) bins)))
              (snd entry))
  | Some _ => Raise (PyExc TypeError "agg function failed")
  end.

Fixpoint collect {A B} (f : A -> result (list B)) (l : list A) : result (list B) :=
  match l with
  | [] => Ok []
  | x :: rest =>
      ys <- f x ;;
      zs <- collect f rest ;;
      Ok (ys ++ zs)
  end.

(** Wall-clock time of the index entries: a naive index holds it already,
    an aware one is shifted by the offset of its zone. *)
Definition wall_clock (tz : option string) (vals : list Timestamp) : list Timestamp :=
  match tz with
  | None => vals
  | Some z => map (option_map (fun t => (t + utc_offset z t)%Z)) vals
  end.

(** The label of day [d]: midnight of that day, in the zone of the index. *)
Definition day_label (tz : option string) (d : Z) : Timestamp :=
  match tz with
  | None => Some (d * day_ns)%Z
  | Some z => Some (d * day_ns - utc_offset z (d * day_ns))%Z
  end.

(** [df.resample("D")] computes the bins, [.agg(spec)] then looks up the
    columns that [spec] names. *)
Definition resample_D_agg (df : DataFrame) (spec : list (string * list stat))
  : result (Index * list ((string * string) * Column)) :=
  match index df with
  | DatetimeIndex name tz vals =>
      let wall := wall_clock tz vals in
      bins <- day_bins wall ;;
      if forallb (fun e => has_key (fst e) (columns df)) spec then
        cols <- collect (agg_column wall bins (columns df)) spec ;;
        Ok (DatetimeIndex name tz (map (day_label tz) bins), cols)
      else Raise (PyExc KeyError "Column(s) do not exist")
  | _ => Raise (PyExc TypeError "Only valid with DatetimeIndex")
  end.

Fixpoint lstrip (c : ascii) (s : string) : string :=
  match s with
  | EmptyString => EmptyString
  | String a rest => if Ascii.eqb a c then lstrip c rest else s
  end.

Fixpoint string_rev (s : string) : string :=
  match s with
  | EmptyString => EmptyString
  | String a rest => (string_rev rest ++ String a EmptyString)%string
  end.

(** [s.strip(c)] *)
Definition strip (c : ascii) (s : string) : string :=
  string_rev (lstrip c (string_rev (lstrip c s))).

(** ["_".join(col).strip("_")] *)
Definition flat_name (col : string * string) : string :=
  strip "_"%char (String.concat "_" [fst col; snd col]).

Definition daily_summary (df_local_naive : DataFrame) : result DataFrame :=
  if empty df_local_naive then Ok empty_frame
  else
    daily <- resample_D_agg df_local_naive agg_spec ;;
    Ok (mkFrame (fst daily)
                (map (fun kc => (flat_name (fst kc), snd kc)) (snd daily))).

End Aggregator.

(* ================================================================= *)
(** ** Anomaly Scorer: [rolling_anomaly] *)

Record Series (A : Type) := mkSeries {
  s_index : Index;
  s_values : list A
}.
Arguments mkSeries {A} _ _.
Arguments s_index {A} _.
Arguments s_values {A} _.

(** A rolling standard deviation: missing, or the square root of an exact
    variance. *)
Inductive root :=
| RNaN
| Sqrt (v : Q).

(** A z-score: missing, infinite, or the quotient [d / sqrt v] with
    [v] non-zero. *)
Inductive score :=
| Missing
| PosInf
| NegInf
| Quot (d v : Q).

(** The trailing window of [W] samples that ends at position [i]. *)
Definition window (vals : list num) (W i : nat) : list num :=
  skipn (i + 1 - W) (firstn (i + 1) vals).

Definition sample_var (qs : list Q) : Q :=
  let n := inject_Z (Z.of_nat (List.length qs)) in
  let m := (Qsum qs / n)%Q in
  Qred (Qsum (map (fun x => ((x - m) * (x - m))%Q) qs) / (n - 1))%Q.

(** [s.rolling(window, min_periods)] checks its arguments first. *)
Definition check_rolling (W minp : Z) : result unit :=
  if (W <? 0)%Z then Raise (PyExc ValueError "window must be an integer 0 or greater")
  else if (W <? minp)%Z then Raise (PyExc ValueError "min_periods must be <= window")
  else Ok tt.

Definition rolling_mean (vals : list num) (W minp : Z) : result (list num) :=
  _ <- check_rolling W minp ;;
  Ok (map (fun i =>
             let w := window vals (Z.to_nat W) i in
             if (minp <=? Z.of_nat (count_valid w))%Z then mean w else NaN)
          (seq 0 (List.length vals))).

Definition rolling_std (vals : list num) (W minp : Z) : result (list root) :=
  _ <- check_rolling W minp ;;
  Ok (map (fun i =>
             let w := window vals (Z.to_nat W) i in
             if (minp <=? Z.of_nat (count_valid w))%Z && (1 <? count_valid w)%nat
             then Sqrt (sample_var (valid w)) else RNaN)
          (seq 0 (List.length vals))).

(** [s - mu] on one position. *)
Definition num_sub (a b : num) : num :=
  match a, b with
  | Val x, Val y => Val (x - y)
  | _, _ => NaN
  end.

(** [d / sd] on one position, with IEEE division by zero. *)
Definition num_div (d : num) (sd : root) : score :=
  match d, sd with
  | Val x, Sqrt v =>
      if Qeq_bool v 0 then
        match (x ?= 0)%Q with
        | Eq => Missing
        | Gt => PosInf
        | Lt => NegInf
        end
      else Quot (Qred x) v
  | _, _ => Missing
  end.

Fixpoint zip_with {A B C} (f : A -> B -> C) (l : list A) (r : list B) : list C :=
  match l, r with
  | a :: l', b :: r' => f a b :: zip_with f l' r'
  | _, _ => []
  end.

(** The scorer returns its argument itself when that is [None] or empty;
    an empty series has no values, so it is the same series at either
    value type. *)
Definition rolling_anomaly (s : option (Series num)) (W : Z)
  : result (option (Series score)) :=
  match s with
  | None => Ok None
  | Some s =>
      if (List.length (s_values s) =? 0)%nat then Ok (Some (mkSeries (s_index s) []))
      else
        let minp := Z.max 4 (W / 4) in
        mu <- rolling_mean (s_values s) W minp ;;
        sd <- rolling_std (s_values s) W minp ;;
        Ok (Some (mkSeries (s_index s)
                    (zip_with num_div (zip_with num_sub (s_values s) mu) sd)))
  end.

(* ================================================================= *)
(** ** Query Builder and Fetcher *)

Definition open_meteo_url (lat lon : Q) (past_hours : Z) : Query :=
  mkQuery lat lon
    ["temperature_2m"; "relative_humidity_2m"; "precipitation";
     "wind_speed_10m"; "wind_gusts_10m"]
    "UTC" past_hours 0 "ms" "mm" "fahrenheit".

(** The provider: a request either raises (transport failure, HTTP status,
    undecodable body) or yields a payload. *)
Definition Network := Query -> result Payload.

Definition fetch_hourly_json (net : Network) (lat lon : Q) (days : Z)
  : result Payload :=
  let url := open_meteo_url lat lon (days * 24) in
  js <- net url ;;
  Ok (mkPayload (hourly js) (Some url)).

(* ================================================================= *)
(** ** Cache Store: [cache_path], [save_cache], [load_cache] *)

Definition string_of_nat (n : nat) : string :=
  NilZero.string_of_uint (Nat.to_uint n).

Definition round_half_even (q : Q) : Z :=
  let f := Qfloor q in
  match ((q - inject_Z f) ?= (1 # 2))%Q with
  | Lt => f
  | Gt => (f + 1)%Z
  | Eq => if Z.even f then f else (f + 1)%Z
  end.

Definition drop_first (s : string) : string :=
  match s with
  | EmptyString => EmptyString
  | String _ rest => rest
  end.

(** [f"{x:.4f}"] *)
Definition fixed4 (x : Q) : string :=
  let n := Z.abs (round_half_even (x * 10000)) in
  ((if Qle_bool 0 x then "" else "-")
   ++ string_of_nat (Z.to_nat (n / 10000)) ++ "."
   ++ drop_first (string_of_nat (Z.to_nat (10000 + n mod 10000))))%string.

Definition cache_path (lat lon : Q) : string :=
  (DATA_DIR ++ "/" ++ "weather_" ++ fixed4 lat ++ "_" ++ fixed4 lon ++ ".csv")%string.

(** One field of a CSV file, as the text that pandas writes for it: nothing,
    a decimal literal, an ISO date-time with or without a UTC offset, or
    other text. *)
Inductive field :=
| FEmpty
| FNumber (q : Q)
| FDatetime (t : Z) (offset : bool)
| FText (s : string).

Record csv := mkCsv {
  header : list string;
  records : list (list field)
}.

Definition FileSystem := string -> option csv.

Definition fs_write (path : string) (file : csv) (fs : FileSystem) : FileSystem :=
  fun p => if String.eqb p path then Some file else fs p.

Definition field_of_num (v : num) : field :=
  match v with NaN => FEmpty | Val q => FNumber q end.

Definition field_of_ts (aware : bool) (t : Timestamp) : field :=
  match t with None => FEmpty | Some z => FDatetime z aware end.

Definition field_of_cell (c : cell) : field :=
  match c with
  | CNull => FEmpty
  | CNum q => FNumber q
  | CStr s => if String.eqb s "" then FEmpty else FText s
  | CTimestamp t => FDatetime t true
  end.

Definition is_aware (tz : option string) : bool :=
  match tz with Some _ => true | None => false end.

Definition fields_of_column (c : Column) : list field :=
  match c with
  | Float64 v => map field_of_num v
  | Object v => map field_of_cell v
  | Datetime64 tz v => map (field_of_ts (is_aware tz)) v
  end.

Definition index_label (ix : Index) : string :=
  match ix with
  | RangeIndex _ => ""
  | DatetimeIndex name _ _ => match name with Some n => n | None => "" end
  | PlainIndex name _ => match name with Some n => n | None => "" end
  end.

Definition fields_of_index (ix : Index) : list field :=
  match ix with
  | RangeIndex n => map (fun i => FNumber (inject_Z (Z.of_nat i))) (seq 0 n)
  | DatetimeIndex _ tz v => map (field_of_ts (is_aware tz)) v
  | PlainIndex _ v => map field_of_cell v
  end.

(** [df.to_csv(path)]: a header with the index label first, then one record
    per row. *)
Definition to_csv (df : DataFrame) : csv :=
  let ix := fields_of_index (index df) in
  let cols := map (fun kv => fields_of_column (snd kv)) (columns df) in
  mkCsv (index_label (index df) :: col_names df)
        (map (fun i => nth i ix FEmpty :: map (fun c => nth i c FEmpty) cols)
             (seq 0 (nrows df))).

Definition save_cache (df_utc : DataFrame) (lat lon : Q) (fs : FileSystem)
  : FileSystem :=
  fs_write (cache_path lat lon) (to_csv df_utc) fs.

(** Unnamed header fields are named by their position. *)
Definition fix_labels (h : list string) : list string :=
  map (fun il => if String.eqb (snd il) ""
                 then ("Unnamed: " ++ string_of_nat (fst il))%string
                 else snd il)
      (combine (seq 0 (List.length h)) h).

Fixpoint position (k : string) (l : list string) : option nat :=
  match l with
  | [] => None
  | x :: rest =>
      if String.eqb k x then Some 0
      else option_map S (position k rest)
  end.

Definition is_numeric_field (f : field) : bool :=
  match f with FEmpty | FNumber _ => true | _ => false end.

Definition is_date_field (aware : bool) (f : field) : bool :=
  match f with
  | FEmpty => true
  | FDatetime _ a => Bool.eqb a aware
  | _ => false
  end.

Definition ts_of_field (f : field) : Timestamp :=
  match f with FDatetime t _ => Some t | _ => None end.

Definition num_of_field (f : field) : num :=
  match f with FNumber q => Val q | _ => NaN end.

Section Cache.
Context {P : Pandas}.

(** A field read as text. *)
Definition text_of_field (f : field) : cell :=
  match f with
  | FEmpty => CNull
  | FNumber q => CStr (number_str q)
  | FDatetime t a => CStr (timestamp_str (if a then Some UTC else None) (Some t))
  | FText s => CStr s
  end.

(** The column type that the reader infers. *)
Definition infer_column (fs : list field) : Column :=
  if forallb is_numeric_field fs then Float64 (map num_of_field fs)
  else Object (map text_of_field fs).

(** [parse_dates] on the index column: dates without offset give a naive
    index, dates with offset a UTC one, anything else stays text. *)
Definition parse_dates_index (name : string) (fs : list field) : Index :=
  if forallb (is_date_field false) fs then
    DatetimeIndex (Some name) None (map ts_of_field fs)
  else if forallb (is_date_field true) fs then
    DatetimeIndex (Some name) (Some UTC) (map ts_of_field fs)
  else PlainIndex (Some name) (map text_of_field fs).

(** The header labels with their positions, without position [k]. *)
Definition data_labels (k : nat) (labels : list string) : list (nat * string) :=
  filter (fun jl => negb (fst jl =? k)%nat)
         (combine (seq 0 (List.length labels)) labels).

(** [pd.read_csv(path, parse_dates=[name], index_col=name)] *)
Definition read_csv (file : csv) (name : string) : result DataFrame :=
  let labels := fix_labels (header file) in
  match position name labels with
  | None => Raise (PyExc ValueError "Missing column provided to 'parse_dates'")
  | Some k =>
      match records file with
      | [] =>
          Ok (mkFrame (PlainIndex (Some name) [])
                      (map (fun jl => (snd jl, Object [])) (data_labels k labels)))
      | rows =>
          Ok (mkFrame
                (parse_dates_index name (map (fun r => nth k r FEmpty) rows))
                (map (fun jl => (snd jl,
                                 infer_column (map (fun r => nth (fst jl) r FEmpty) rows)))
                     (data_labels k labels)))
      end
  end.

(** [df.index.tz] *)
Definition index_tz (ix : Index) : result (option string) :=
  match ix with
  | DatetimeIndex _ tz _ => Ok tz
  | _ => Raise (PyExc AttributeError "'Index' object has no attribute 'tz'")
  end.

(** [index.tz_localize("UTC")] on a naive index. *)
Definition tz_localize_utc (ix : Index) : Index :=
  match ix with
  | DatetimeIndex name _ vals => DatetimeIndex name (Some UTC) vals
  | _ => ix
  end.

Definition load_cache (lat lon : Q) (fs : FileSystem) : result DataFrame :=
  let path := cache_path lat lon in
  match fs path with
  | None => Ok empty_frame
  | Some file =>
      df <- read_csv file "time" ;;
      tz <- index_tz (index df) ;;
      match tz with
      | None => Ok (mkFrame (tz_localize_utc (index df)) (columns df))
      | Some _ => Ok df
      end
  end.

End Cache.

(* ================================================================= *)
(** ** Display Sanitizer: [arrow_safe_df] *)

Definition index_name (ix : Index) : option string :=
  match ix with
  | RangeIndex _ => None
  | DatetimeIndex name _ _ => name
  | PlainIndex name _ => name
  end.

Definition column_of_index (ix : Index) : Column :=
  match ix with
  | RangeIndex n => Float64 (map (fun i => Val (inject_Z (Z.of_nat i))) (seq 0 n))
  | DatetimeIndex _ tz v => Datetime64 tz v
  | PlainIndex _ v => Object v
  end.

(** The label under which [reset_index] inserts the old index. *)
Definition reset_label (df : DataFrame) : string :=
  match index_name (index df) with
  | Some n => n
  | None => if has_key "index" (columns df) then "level_0" else "index"
  end.

(** [df.reset_index()]: the index becomes the leading column; a label that
    is already a column cannot be inserted. *)
Definition reset_index (df : DataFrame) : result DataFrame :=
  let name := reset_label df in
  if has_key name (columns df)
  then Raise (PyExc ValueError ("cannot insert " ++ name ++ ", already exists")%string)
  else Ok (mkFrame (RangeIndex (nrows df))
                   ((name, column_of_index (index df)) :: columns df)).

Definition is_object_dtype (c : Column) : bool :=
  match c with Object _ => true | _ => false end.

Definition is_datetime64_any_dtype (c : Column) : bool :=
  match c with Datetime64 _ _ => true | _ => false end.

(** [series.notna().sum()] *)
Definition notna_count (c : Column) : nat :=
  match c with
  | Float64 v => List.length (filter notna_num v)
  | Object v => List.length (filter notna_cell v)
  | Datetime64 _ v => List.length (filter notna_ts v)
  end.

(** [max(1, int(0.8 * n))]; the truncated product is [4 * n / 5] for every
    length a table can have. *)
Definition promote_threshold (n : nat) : nat := Nat.max 1 (4 * n / 5).

Section Sanitizer.
Context {P : Pandas}.

(** [series.astype(str)] *)
Definition astype_str (c : Column) : Column :=
  match c with
  | Float64 v =>
      Object (map (fun x => match x with
                            | NaN => CStr "nan"
                            | Val q => CStr (number_str q)
                            end) v)
  | Object v =>
      Object (map (fun x => match x with
                            | CNull => CStr "None"
                            | CNum q => CStr (number_str q)
                            | CStr s => CStr s
                            | CTimestamp t => CStr (timestamp_str (Some UTC) (Some t))
                            end) v)
  | Datetime64 tz v => Object (map (fun t => CStr (timestamp_str tz t)) v)
  end.

(** First [if] of the loop body: a text column most of whose values parse
    as dates is replaced by the parsed column; an exception leaves it as it
    is. *)
Definition promote_text (c : Column) : Column :=
  match c with
  | Object cells =>
      match to_datetime_coerce cells with
      | Ok coerced =>
          if (promote_threshold (col_len coerced) <=? notna_count coerced)%nat
          then coerced else c
      | Raise _ => c
      end
  | _ => c
  end.

(** Second [if] of the loop body: a zone-aware date column loses its zone;
    an exception turns the column into text. *)
Definition strip_timezone (c : Column) : Column :=
  match c with
  | Datetime64 (Some zone) vals =>
      match dt_tz_localize_none zone vals with
      | Ok naive => Datetime64 None naive
      | Raise _ => astype_str c
      end
  | _ => c
  end.

Definition arrow_safe_df (df : DataFrame) : result DataFrame :=
  if empty df then Ok df
  else
    frame <- reset_index df ;;
    Ok (mkFrame (index frame)
                (map (fun kv => (fst kv, strip_timezone (promote_text (snd kv))))
                     (columns frame))).

End Sanitizer.

(* ================================================================= *)
(** ** Pipeline driver: the fetch-and-cache block of the two scripts *)

Inductive UiEvent :=
| StError (msg : string)
| StCaption (msg : string).

(** How the block ends: the script goes on with [df_utc], [st.stop()] ends
    the run, or an exception leaves the script. *)
Inductive Outcome :=
| Continue (df_utc : DataFrame) (fs : FileSystem) (ui : list UiEvent)
| Stopped (fs : FileSystem) (ui : list UiEvent)
| Crashed (e : exn) (fs : FileSystem) (ui : list UiEvent).

(** Calling a [bool]. *)
Definition call_bool (b : bool) : result bool :=
  Raise (PyExc TypeError "'bool' object is not callable").

Section Driver.
Context {P : Pandas}.

(** The body of [try]. *)
Definition fetch_and_save (net : Network) (lat lon : Q) (days : Z) (fs : FileSystem)
  : result (DataFrame * FileSystem) :=
  js <- fetch_hourly_json net lat lon days ;;
  df_utc <- hourly_to_frame (ArgDict js) ;;
  Ok (df_utc, save_cache df_utc lat lon fs).

(** [fetch.py], lines 165-174. *)
Definition fetch_py_driver (net : Network) (lat lon : Q) (days : Z) (fs : FileSystem)
  : Outcome :=
  match fetch_and_save net lat lon days fs with
  | Ok (df_utc, fs') => Continue df_utc fs' []
  | Raise e =>
      let ui := [StError ("Fetch error: " ++ exn_str e)%string] in
      match load_cache lat lon fs with
      | Raise e' => Crashed e' fs ui
      | Ok df_utc => if empty df_utc then Stopped fs ui else Continue df_utc fs ui
      end
  end.

(** [app_streamlit.py], lines 25-33: the handler tests [df_utc.empty()]. *)
Definition app_streamlit_driver (net : Network) (lat lon : Q) (days : Z)
           (fs : FileSystem) : Outcome :=
  match fetch_and_save net lat lon days fs with
  | Ok (df_utc, fs') => Continue df_utc fs' []
  | Raise e =>
      let ui := [StError ("Fetch error: " ++ exn_str e)%string] in
      match load_cache lat lon fs with
      | Raise e' => Crashed e' fs ui
      | Ok df_utc =>
          match call_bool (empty df_utc) with
          | Raise e' => Crashed e' fs ui
          | Ok b => if b then Stopped fs ui else Continue df_utc fs ui
          end
      end
  end.

End Driver.

(* ================================================================= *)
(** ** Vocabulary of the properties *)

(** The number of non-missing values among [S[i-W+1 .. i]]. *)
Definition valid_in_trailing (vals : list num) (W : Z) (i : nat) : nat :=
  List.length
    (filter (fun j => (Z.of_nat i - W <? Z.of_nat j)%Z && (j <=? i)%nat
                      && notna_num (nth j vals NaN))
            (seq 0 (List.length vals))).

(** [max(4, W // 4)] *)
Definition min_periods (W : Z) : Z := Z.max 4 (W / 4).

Definition is_infinite (z : score) : bool :=
  match z with PosInf | NegInf => true | _ => false end.

Definition is_missing (z : score) : bool :=
  match z with Missing => true | _ => false end.

(** A normalised series given back as an hourly block: its columns, with
    its time index in front as the ["time"] array when it has one
    ([reset_index().to_dict("list")]). *)
Definition hourly_of_frame (df : DataFrame) : list (string * list cell) :=
  let cols := map (fun kv => (fst kv, cells_of_column (snd kv))) (columns df) in
  match index df with
  | DatetimeIndex (Some name) tz vals =>
      (name, cells_of_column (Datetime64 tz vals)) :: cols
  | _ => cols
  end.

(** The arrays of a block all have length [n]. *)
Definition rectangular (n : nat) (data : list (string * list cell)) : Prop :=
  Forall (fun kv => List.length (snd kv) = n) data.

(** Ascending instants, missing ones last. *)
Definition index_sorted (vals : list Timestamp) : Prop :=
  StronglySorted (fun a b => key_le a b = true) vals.

(** Numeric columns as long as the index, under the names of distinct
    measurements (a CSV header returns such names as they are). *)
Definition measurement_columns (df : DataFrame) : Prop :=
  NoDup (col_names df)
  /\ Forall (fun kv => exists vs, snd kv = Float64 vs
                                  /\ List.length vs = nrows df
                                  /\ fst kv <> "" /\ fst kv <> "time")
            (columns df).

(** A series as the normaliser produces it from a payload with a ["time"]
    array: a UTC index named ["time"] over measurement columns. *)
Definition normalized_utc (df : DataFrame) : Prop :=
  (exists vals, index df = DatetimeIndex (Some "time") (Some UTC) vals)
  /\ measurement_columns df.

(* ================================================================= *)
(** ** A reference implementation of the pandas interface

    It reads the date format of the provider ([YYYY-MM-DDTHH:MM]) and plain
    decimal literals, and knows the two zones of the configuration at their
    standard offsets. *)

Definition digit_of (c : ascii) : option Z :=
  let n := nat_of_ascii c in
  if (48 <=? n)%nat && (n <=? 57)%nat then Some (Z.of_nat (n - 48)) else None.

Fixpoint digits_value (s : string) (acc : Z) : option Z :=
  match s with
  | EmptyString => Some acc
  | String c rest =>
      match digit_of c with
      | Some d => digits_value rest (acc * 10 + d)
      | None => None
      end
  end.

Definition natural_of_string (s : string) : option Z :=
  match s with
  | EmptyString => None
  | _ => digits_value s 0
  end.

Definition days_from_civil (y m d : Z) : Z :=
  let y' := if (m <=? 2)%Z then (y - 1)%Z else y in
  let era := (y' / 400)%Z in
  let yoe := (y' - era * 400)%Z in
  let mp := if (m <=? 2)%Z then (m + 9)%Z else (m - 3)%Z in
  let doy := ((153 * mp + 2) / 5 + d - 1)%Z in
  let doe := (yoe * 365 + yoe / 4 - yoe / 100 + doy)%Z in
  (era * 146097 + doe - 719468)%Z.

Definition ref_parse_datetime (s : string) : option Z :=
  if negb (String.length s =? 16)%nat then None
  else if negb (String.eqb (substring 4 1 s) "-" && String.eqb (substring 7 1 s) "-"
                && String.eqb (substring 10 1 s) "T" && String.eqb (substring 13 1 s) ":")
  then None
  else
    match natural_of_string (substring 0 4 s), natural_of_string (substring 5 2 s),
          natural_of_string (substring 8 2 s), natural_of_string (substring 11 2 s),
          natural_of_string (substring 14 2 s) with
    | Some y, Some m, Some d, Some h, Some mi =>
        if (1 <=? m)%Z && (m <=? 12)%Z && (1 <=? d)%Z && (d <=? 31)%Z
           && (h <? 24)%Z && (mi <? 60)%Z
        then Some (((days_from_civil y m d * 86400 + h * 3600 + mi * 60) * 10 ^ 9)%Z)
        else None
    | _, _, _, _, _ => None
    end.

Fixpoint split_at_dot (s : string) : string * option string :=
  match s with
  | EmptyString => (EmptyString, None)
  | String c rest =>
      if Ascii.eqb c "."%char then (EmptyString, Some rest)
      else let (a, b) := split_at_dot rest in (String c a, b)
  end.

Definition ref_parse_unsigned (s : string) : option Q :=
  match split_at_dot s with
  | (ip, None) => option_map inject_Z (natural_of_string ip)
  | (ip, Some fp) =>
      match natural_of_string ip, natural_of_string fp with
      | Some a, Some b =>
          Some (Qred (inject_Z a + inject_Z b / inject_Z (10 ^ Z.of_nat (String.length fp))))
      | _, _ => None
      end
  end.

Definition ref_parse_number (s : string) : option Q :=
  match s with
  | String "-"%char rest => option_map Qopp (ref_parse_unsigned rest)
  | _ => ref_parse_unsigned s
  end.

Definition hour_ns : Z := (3600 * 10 ^ 9)%Z.

Definition ref_known_zone (zone : string) : bool :=
  String.eqb zone UTC || String.eqb zone LOCAL_TZ.

Definition ref_utc_offset (zone : string) (t : Z) : Z :=
  if String.eqb zone LOCAL_TZ then (- 7 * hour_ns)%Z else 0%Z.

Definition ref_to_datetime_cell (c : cell) : Timestamp :=
  match c with
  | CStr s => ref_parse_datetime s
  | CTimestamp t => Some t
  | CNum q => Some (Qfloor q)
  | CNull => None
  end.

Definition ref_timestamp_str (tz : option string) (t : Timestamp) : string :=
  match t with
  | None => "NaT"
  | Some z =>
      (NilZero.string_of_int (Z.to_int z)
       ++ match tz with Some n => "ns " ++ n | None => "ns" end)%string
  end.

Definition ref_number_str (q : Q) : string :=
  (NilZero.string_of_int (Z.to_int (Qnum q)) ++ "/"
   ++ NilZero.string_of_uint (Pos.to_uint (Qden q)))%string.

#[export] Instance reference_pandas : Pandas := {
  parse_datetime := ref_parse_datetime;
  datetime_of_number := fun q => Some (Qfloor q);
  parse_number := ref_parse_number;
  utc_offset := ref_utc_offset;
  to_datetime_coerce := fun cells =>
    Ok (Datetime64 None (map ref_to_datetime_cell cells));
  dt_tz_localize_none := fun zone vals =>
    if ref_known_zone zone
    then Ok (map (option_map (fun t => (t + ref_utc_offset zone t)%Z)) vals)
    else Raise (PyExc ValueError "unknown zone");
  timestamp_str := ref_timestamp_str;
  number_str := ref_number_str
}.

(* ================================================================= *)
(** ** Expected results and example data *)

(** The order of [sort_keys] on rows: by instant, the position is not
    compared. *)
Definition pair_le (x y : Timestamp * nat) : Prop := key_le (fst x) (fst y) = true.

Section ExpectedFrames.
Context {P : Pandas}.

(** The frame that [hourly_to_frame] builds from a block with a ["time"]
    array. *)
Definition time_frame (data : list (string * list cell)) (tcol : list cell)
  : DataFrame :=
  let keys := map to_datetime_utc_cell tcol in
  let order := argsort keys in
  mkFrame (DatetimeIndex (Some "time") (Some UTC) (take None order keys))
          (map (fun kv => (fst kv, Float64 (take NaN order (map to_numeric_cell (snd kv)))))
               (drop_col "time" data)).

(** The frame that it builds from a block without one. *)
Definition plain_frame (n : nat) (data : list (string * list cell)) : DataFrame :=
  mkFrame (RangeIndex n)
          (map (fun kv => (fst kv, Float64 (map to_numeric_cell (snd kv)))) data).

End ExpectedFrames.

Definition index_stamps (ix : Index) : list Timestamp :=
  match ix with
  | DatetimeIndex _ _ vals => vals
  | _ => []
  end.

Definition example_payload : Payload :=
  mkPayload
    (Some [ ("time", [CStr "not a date"; CStr "2025-09-04T01:00"; CStr "2025-09-04T00:00"]);
            ("temperature_2m", [CNum 70; CStr "n/a"; CNum 68]) ])
    None.

Definition example_frame : DataFrame :=
  mkFrame (DatetimeIndex (Some "time") (Some UTC)
             [Some 1756944000000000000%Z; Some 1756947600000000000%Z; None])
          [("temperature_2m", Float64 [Val 68; NaN; Val 70])].

Definition example_plain_payload : Payload :=
  mkPayload (Some [ ("temperature_2m", [CNum 70; CStr "n/a"; CNum 68]) ]) None.

(** The score at one position, from the sample, the rolling mean and the
    rolling deviation there. *)
Definition mean_at (vals : list num) (W : Z) (i : nat) : num :=
  let w := window vals (Z.to_nat W) i in
  if (min_periods W <=? Z.of_nat (count_valid w))%Z then mean w else NaN.

Definition std_at (vals : list num) (W : Z) (i : nat) : root :=
  let w := window vals (Z.to_nat W) i in
  if (min_periods W <=? Z.of_nat (count_valid w))%Z && (1 <? count_valid w)%nat
  then Sqrt (sample_var (valid w)) else RNaN.

Definition score_at (vals : list num) (W : Z) (i : nat) : score :=
  num_div (num_sub (nth i vals NaN) (mean_at vals W i)) (std_at vals W i).

(** The flattened column labels of the daily table. *)
Definition daily_columns : list string :=
  [ "temperature_2m_mean"; "temperature_2m_min"; "temperature_2m_max";
    "precipitation_sum"; "wind_speed_10m_mean" ].

Definition exn_class_of {A} (r : result A) : option exc_class :=
  match r with
  | Ok _ => None
  | Raise e => Some (exn_class e)
  end.

Definition no_files : FileSystem := fun _ => None.

Definition grand_junction : Q * Q := (390639 # 10000, - (1085506 # 10000))%Q.

(** What the loop of [arrow_safe_df] does to one column. *)
Definition sanitize_column {P : Pandas} (c : Column) : Column :=
  strip_timezone (promote_text c).

(** A table with a UTC index of five instants and a text column of which
    four values are dates. *)
Definition example_table : DataFrame :=
  mkFrame (DatetimeIndex (Some "time") (Some UTC)
             [Some 0%Z; Some hour_ns; Some (2 * hour_ns)%Z; Some (3 * hour_ns)%Z;
              Some (4 * hour_ns)%Z])
          [ ("seen", Object [CStr "2025-09-04T00:00"; CStr "2025-09-04T01:00";
                             CStr "soon"; CStr "2025-09-04T03:00";
                             CStr "2025-09-04T04:00"]) ].

(** A table whose index is named like one of its columns. *)
Definition colliding_table : DataFrame :=
  mkFrame (DatetimeIndex (Some "time") (Some UTC) [Some 0%Z])
          [ ("time", Object [CStr "noon"]) ].

(** A table with a date column in a zone that the reference zone database
    does not know. *)
Definition unknown_zone_table : DataFrame :=
  mkFrame (RangeIndex 1) [ ("seen", Datetime64 (Some "Mars/Olympus") [Some 0%Z]) ].

(** A provider that cannot be reached. *)
Definition unreachable : Network :=
  fun _ => Raise (PyExc RequestException "connection timed out").

Definition not_callable : exn := PyExc TypeError "'bool' object is not callable".

(** Strictly ascending instants, missing ones last. *)
Definition key_lt (a b : Timestamp) : bool :=
  match a, b with
  | Some x, Some y => (x <? y)%Z
  | _, None => true
  | None, Some _ => false
  end.

Definition index_ascending (vals : list Timestamp) : Prop :=
  StronglySorted (fun a b => key_lt a b = true) vals.

(** A payload whose timestamps ascend, the unparsable one last. *)
Definition sorted_payload : Payload :=
  mkPayload
    (Some [ ("time", [CStr "2025-09-04T00:00"; CStr "2025-09-04T01:00"; CStr "soon"]);
            ("temperature_2m", [CNum 68; CStr "n/a"; CNum 70]) ])
    None.

(** [example_frame] in local wall-clock time. *)
Definition example_local_frame : DataFrame :=
  mkFrame (DatetimeIndex (Some "time") None
             [Some 1756918800000000000%Z; Some 1756922400000000000%Z; None])
          [("temperature_2m", Float64 [Val 68; NaN; Val 70])].

(** The value of a numeric column in row [k]. *)
Definition float_at (df : DataFrame) (label : string) (k : nat) : option num :=
  match lookup label (columns df) with
  | Some (Float64 vs) => nth_error vs k
  | _ => None
  end.

(** Readings on 4 and 6 September 2025, none on the 5th. *)
Definition gap_frame : DataFrame :=
  mkFrame (DatetimeIndex (Some "time") None
             [Some (20335 * day_ns)%Z; Some (20335 * day_ns + hour_ns)%Z;
              Some (20337 * day_ns)%Z])
          [ ("temperature_2m", Float64 [Val 70; Val 72; Val 68]);
            ("precipitation", Float64 [Val 0; Val 1; Val 0]);
            ("wind_speed_10m", Float64 [Val 2; NaN; Val 3]) ].

(** Readings at 03:00 and 09:00 UTC on 4 September 2025; the first one
    falls on 3 September in local time. *)
Definition night_frame : DataFrame :=
  mkFrame (DatetimeIndex (Some "time") (Some UTC)
             [Some (20335 * day_ns + 3 * hour_ns)%Z; Some (20335 * day_ns + 9 * hour_ns)%Z])
          [ ("temperature_2m", Float64 [Val 60; Val 58]);
            ("precipitation", Float64 [Val 0; Val 0]);
            ("wind_speed_10m", Float64 [Val 2; Val 3]) ].

(** Two rows whose timestamps did not parse. *)
Definition unparsed_frame : DataFrame :=
  mkFrame (DatetimeIndex (Some "time") None [None; None])
          [ ("temperature_2m", Float64 [Val 70; Val 72]);
            ("precipitation", Float64 [Val 0; Val 1]);
            ("wind_speed_10m", Float64 [Val 2; Val 3]) ].

(** The daily table of [gap_frame]. *)
Definition gap_daily : DataFrame :=
  mkFrame (DatetimeIndex (Some "time") None
             [Some (20335 * day_ns)%Z; Some (20336 * day_ns)%Z; Some (20337 * day_ns)%Z])
          [ ("temperature_2m_mean", Float64 [Val 71; NaN; Val 68]);
            ("temperature_2m_min", Float64 [Val 70; NaN; Val 68]);
            ("temperature_2m_max", Float64 [Val 72; NaN; Val 68]);
            ("precipitation_sum", Float64 [Val 1; Val 0; Val 0]);
            ("wind_speed_10m_mean", Float64 [Val 2; NaN; Val 3]) ].

(** Four equal samples and a fifth one, and their scores in a window of
    four. *)
Definition step_series : Series num :=
  mkSeries (RangeIndex 5) [Val 5; Val 5; Val 5; Val 5; Val 7].

Definition step_scores : Series score :=
  mkSeries (RangeIndex 5) [Missing; Missing; Missing; Missing; Quot (3 # 2) 1].

(** A series with a missing sample amid valid ones. *)
Definition holed_series : Series num :=
  mkSeries (RangeIndex 6) [Val 1; Val 2; Val 4; Val 3; NaN; Val 5].

Definition holed_scores : Series score :=
  mkSeries (RangeIndex 6)
    [Missing; Missing; Missing; Quot (1 # 2) (5 # 3); Missing; Quot (3 # 2) (5 # 3)].

(** The scores of [step_series] with one more sample. *)
Definition longer_step_scores : Series score :=
  mkSeries (RangeIndex 5)
    [Missing; Missing; Missing; Missing; Quot (3 # 2) 1; Quot (283 # 4) (26707 # 12)].

(** [c in s] *)
Fixpoint has_char (c : ascii) (s : string) : bool :=
  match s with
  | EmptyString => false
  | String x rest => Ascii.eqb c x || has_char c rest
  end.


(** A provider that answers every request with the same payload. *)
Definition provider (js : Payload) : Network := fun _ => Ok js.

(** A payload whose arrays differ in length. *)
Definition ragged_payload : Payload :=
  mkPayload (Some [ ("time", [CStr "2025-09-04T00:00"]); ("temperature_2m", []) ]) None.

(** A payload without hourly data. *)
Definition bare_payload : Payload := mkPayload None None.

(* ================================================================= *)
(** * Properties *)

(** ** Lists, association lists *)

Lemma take_length {A} (d : A) order l : List.length (take d order l) = List.length order.
Proof. unfold take. apply length_map. Qed.

Lemma take_map {A B} (f : A -> B) (d : A) order l :
  map f (take d order l) = take (f d) order (map f l).
Proof.
  unfold take. rewrite map_map. apply map_ext. intro i. symmetry. apply map_nth.
Qed.

Lemma take_seq {A} (d : A) l : take d (seq 0 (List.length l)) l = l.
Proof.
  unfold take. apply nth_ext with (d := d) (d' := d).
  - now rewrite length_map, length_seq.
  - intros i Hi. rewrite length_map, length_seq in Hi.
    rewrite (nth_indep _ d (nth 0 l d)) by (now rewrite length_map, length_seq).
    rewrite (map_nth (fun i => nth i l d) (seq 0 (List.length l)) 0 i).
    now rewrite seq_nth.
Qed.

Lemma lookup_map {A B} (f : A -> B) k (l : list (string * A)) :
  lookup k (map (fun kv => (fst kv, f (snd kv))) l) = option_map f (lookup k l).
Proof.
  induction l as [|[k' v] l IH]; simpl; auto.
  destruct (String.eqb k k'); auto.
Qed.

Lemma lookup_set_col {A} k (c : A) l v :
  lookup k l = Some v -> lookup k (set_col k c l) = Some c.
Proof.
  induction l as [|[k' x] l IH]; simpl; [discriminate|].
  destruct (String.eqb k k') eqn:E; simpl; rewrite E; auto.
Qed.

Lemma drop_col_set_col {A} k (c : A) l v :
  lookup k l = Some v -> drop_col k (set_col k c l) = drop_col k l.
Proof.
  induction l as [|[k' x] l IH]; simpl; [discriminate|].
  destruct (String.eqb k k') eqn:E; simpl; rewrite E; simpl; auto.
  intro H. now rewrite IH.
Qed.

Lemma drop_col_map {A B} (f : A -> B) k (l : list (string * A)) :
  drop_col k (map (fun kv => (fst kv, f (snd kv))) l)
  = map (fun kv => (fst kv, f (snd kv))) (drop_col k l).
Proof.
  induction l as [|[k' x] l IH]; simpl; auto.
  destruct (String.eqb k k'); simpl; now rewrite IH.
Qed.

Lemma lookup_drop_col {A} k (l : list (string * A)) : lookup k (drop_col k l) = None.
Proof.
  induction l as [|[k' x] l IH]; simpl; auto.
  destruct (String.eqb k k') eqn:E; simpl; auto. now rewrite E.
Qed.

Lemma drop_col_absent {A} k (l : list (string * A)) :
  lookup k l = None -> drop_col k l = l.
Proof.
  induction l as [|[k' x] l IH]; simpl; auto.
  destruct (String.eqb k k') eqn:E; simpl; [discriminate|].
  intro H. now rewrite IH.
Qed.

(** ** The order of [sort_index] *)

Lemma key_le_total a b : key_le a b = true \/ key_le b a = true.
Proof. destruct a, b; simpl; auto. lia. Qed.

Lemma key_le_trans a b c :
  key_le a b = true -> key_le b c = true -> key_le a c = true.
Proof. destruct a, b, c; simpl; auto; try discriminate; lia. Qed.

Lemma insert_key_perm x l : Permutation (insert_key x l) (x :: l).
Proof.
  induction l as [|y l IH]; simpl; auto.
  destruct (key_le (fst x) (fst y)); auto.
  rewrite IH. apply perm_swap.
Qed.

Lemma sort_keys_perm l : Permutation (sort_keys l) l.
Proof.
  induction l as [|x l IH]; simpl; auto.
  rewrite insert_key_perm. now constructor.
Qed.

Lemma insert_key_sorted x l :
  StronglySorted pair_le l -> StronglySorted pair_le (insert_key x l).
Proof.
  induction 1 as [|y l Hs IH Hy]; simpl.
  - repeat constructor.
  - destruct (key_le (fst x) (fst y)) eqn:E.
    + constructor; [now constructor|].
      constructor; [exact E|].
      eapply Forall_impl; [|exact Hy]. intros z Hz.
      unfold pair_le in *. eapply key_le_trans; eauto.
    + constructor; auto.
      assert (Hyx : pair_le y x).
      { unfold pair_le. destruct (key_le_total (fst x) (fst y)); congruence. }
      eapply Permutation_Forall; [symmetry; apply insert_key_perm|].
      constructor; auto.
Qed.

Lemma sort_keys_sorted l : StronglySorted pair_le (sort_keys l).
Proof.
  induction l; simpl; [constructor|]. now apply insert_key_sorted.
Qed.

(** An already sorted list is left as it is. *)
Lemma sort_keys_fixed l : StronglySorted pair_le l -> sort_keys l = l.
Proof.
  induction 1 as [|x l Hs IH Hx]; simpl; auto.
  rewrite IH. destruct l as [|y l]; simpl; auto.
  inversion Hx as [|? ? Hxy _]; subst. unfold pair_le in Hxy. now rewrite Hxy.
Qed.

Lemma map_snd_combine {A B} (l : list A) (r : list B) :
  List.length l = List.length r -> map snd (combine l r) = r.
Proof.
  revert r. induction l as [|a l IH]; destruct r; simpl; try discriminate; auto.
  intro H. f_equal. apply IH. lia.
Qed.

Lemma map_fst_combine {A B} (l : list A) (r : list B) :
  List.length l = List.length r -> map fst (combine l r) = l.
Proof.
  revert r. induction l as [|a l IH]; destruct r; simpl; try discriminate; auto.
  intro H. f_equal. apply IH. lia.
Qed.

Lemma argsort_perm keys : Permutation (argsort keys) (seq 0 (List.length keys)).
Proof.
  unfold argsort.
  rewrite <- (map_snd_combine keys (seq 0 (List.length keys))) at 2
    by (now rewrite length_seq).
  apply Permutation_map, sort_keys_perm.
Qed.

Lemma argsort_length keys : List.length (argsort keys) = List.length keys.
Proof.
  rewrite (Permutation_length (argsort_perm keys)). apply length_seq.
Qed.

(** Every pair of [combine keys (seq 0 n)] holds a key and its position. *)
Lemma combine_seq_nth (keys : list Timestamp) (d : Timestamp) (s : nat) (pre : list Timestamp) :
  List.length pre = s ->
  Forall (fun p => nth (snd p) (pre ++ keys) d = fst p)
         (combine keys (seq s (List.length keys))).
Proof.
  revert s pre. induction keys as [|k keys IH]; intros s pre Hs; simpl; constructor.
  - simpl. rewrite app_nth2 by lia. now replace (s - List.length pre) with 0 by lia.
  - specialize (IH (S s) (pre ++ [k])).
    rewrite <- app_assoc in IH. simpl in IH. apply IH.
    rewrite length_app. simpl. lia.
Qed.

Lemma take_argsort keys :
  take None (argsort keys) keys
  = map fst (sort_keys (combine keys (seq 0 (List.length keys)))).
Proof.
  unfold take, argsort. rewrite map_map. apply map_ext_in.
  intros p Hp.
  assert (H : Forall (fun p => nth (snd p) keys None = fst p)
                     (sort_keys (combine keys (seq 0 (List.length keys))))).
  { eapply Permutation_Forall; [symmetry; apply sort_keys_perm|].
    apply (combine_seq_nth keys None 0 []). reflexivity. }
  rewrite Forall_forall in H. now apply H.
Qed.

Lemma pair_le_map_fst l :
  StronglySorted pair_le l ->
  StronglySorted (fun a b => key_le a b = true) (map fst l).
Proof.
  induction 1 as [|x l Hs IH Hx]; simpl; constructor; auto.
  rewrite Forall_map. exact Hx.
Qed.

Lemma map_fst_pair_le l :
  StronglySorted (fun a b => key_le a b = true) (map fst l) ->
  StronglySorted pair_le l.
Proof.
  induction l as [|x l IH]; simpl; intro H; constructor;
    inversion H as [|? ? Hs Hx]; subst; auto.
  rewrite Forall_map in Hx. exact Hx.
Qed.

(** The index after [sort_index] is ascending, missing instants last. *)
Lemma take_argsort_sorted keys : index_sorted (take None (argsort keys) keys).
Proof.
  rewrite take_argsort. apply pair_le_map_fst, sort_keys_sorted.
Qed.

(** Sorting a sorted index moves nothing. *)
Lemma argsort_sorted keys :
  index_sorted keys -> argsort keys = seq 0 (List.length keys).
Proof.
  intro H. unfold argsort. rewrite sort_keys_fixed.
  - apply map_snd_combine. now rewrite length_seq.
  - apply map_fst_pair_le. rewrite map_fst_combine by (now rewrite length_seq).
    exact H.
Qed.

(** ** The normaliser on a well-formed block *)

Lemma pd_DataFrame_rectangular n data :
  data <> [] -> rectangular n data ->
  pd_DataFrame data
  = Ok (mkFrame (RangeIndex n) (map (fun kv => (fst kv, Object (snd kv))) data)).
Proof.
  intros Hne Hrect. destruct data as [|[k0 c0] rest]; [congruence|].
  unfold pd_DataFrame.
  assert (Hn : List.length c0 = n) by (inversion Hrect; auto).
  replace (forallb _ _) with true; [now rewrite Hn|].
  symmetry. apply forallb_forall. intros kv Hin.
  unfold rectangular in Hrect. rewrite Forall_forall in Hrect.
  apply Nat.eqb_eq. rewrite Hn. now apply Hrect.
Qed.

(** A block with arrays of different lengths is refused by the table
    constructor. *)
Lemma pd_DataFrame_ragged k0 c0 k1 c1 rest :
  List.length c1 <> List.length c0 ->
  raises (pd_DataFrame ((k0, c0) :: (k1, c1) :: rest)).
Proof.
  intro H. unfold pd_DataFrame. simpl.
  rewrite Nat.eqb_refl. apply Nat.eqb_neq in H. rewrite H. simpl.
  now eexists.
Qed.

Section NormalizerFacts.
Context {P : Pandas}.

Lemma to_numeric_take order cells :
  to_numeric (take_col order (Object cells))
  = Float64 (take NaN order (map to_numeric_cell cells)).
Proof. simpl. f_equal. apply (take_map to_numeric_cell CNull). Qed.

Lemma hourly_to_frame_block js data :
  hourly js = Some data -> data <> [] ->
  hourly_to_frame (ArgDict js)
  = (df <- pd_DataFrame data ;;
     df <- match lookup "time" (columns df) with
           | Some c =>
               let df1 := mkFrame (index df)
                            (set_col "time" (to_datetime_utc c) (columns df)) in
               df2 <- set_index "time" df1 ;;
               Ok (sort_index df2)
           | None => Ok df
           end ;;
     Ok (mkFrame (index df)
                 (map (fun kv => (fst kv, to_numeric (snd kv))) (columns df)))).
Proof.
  intros Hh Hne. unfold hourly_to_frame, get_hourly. rewrite Hh.
  destruct data; [congruence|reflexivity].
Qed.

Lemma hourly_to_frame_time js data tcol n :
  hourly js = Some data -> data <> [] -> rectangular n data ->
  lookup "time" data = Some tcol ->
  hourly_to_frame (ArgDict js) = Ok (time_frame data tcol).
Proof.
  intros Hh Hne Hrect Ht.
  rewrite (hourly_to_frame_block js data Hh Hne).
  rewrite (pd_DataFrame_rectangular n data Hne Hrect). simpl.
  rewrite (lookup_map Object "time" data), Ht. simpl.
  unfold set_index. simpl.
  erewrite lookup_set_col by (rewrite (lookup_map Object "time" data), Ht; reflexivity).
  simpl.
  erewrite drop_col_set_col by (rewrite (lookup_map Object "time" data), Ht; reflexivity).
  unfold sort_index, time_frame. simpl. f_equal. f_equal.
  rewrite (drop_col_map Object "time" data).
  rewrite !map_map. apply map_ext. intros [k c]. simpl. f_equal. f_equal.
  apply (take_map to_numeric_cell CNull).
Qed.

Lemma hourly_to_frame_plain js data n :
  hourly js = Some data -> data <> [] -> rectangular n data ->
  lookup "time" data = None ->
  hourly_to_frame (ArgDict js) = Ok (plain_frame n data).
Proof.
  intros Hh Hne Hrect Ht.
  rewrite (hourly_to_frame_block js data Hh Hne).
  rewrite (pd_DataFrame_rectangular n data Hne Hrect). simpl.
  rewrite (lookup_map Object "time" data), Ht. simpl.
  unfold plain_frame. now rewrite map_map.
Qed.

(** A result of the normaliser comes from one of three cases. *)
Lemma hourly_to_frame_cases js df :
  hourly_to_frame (ArgDict js) = Ok df ->
  (df = empty_frame /\ (hourly js = None \/ hourly js = Some []))
  \/ (exists data tcol n, hourly js = Some data /\ data <> [] /\ rectangular n data
        /\ lookup "time" data = Some tcol /\ df = time_frame data tcol)
  \/ (exists data n, hourly js = Some data /\ data <> [] /\ rectangular n data
        /\ lookup "time" data = None /\ df = plain_frame n data).
Proof.
  intro H. destruct (hourly js) as [data|] eqn:Hh.
  2:{ left. unfold hourly_to_frame, get_hourly in H. rewrite Hh in H.
      split; [congruence|auto]. }
  destruct data as [|[k0 c0] rest] eqn:Hd.
  { left. unfold hourly_to_frame, get_hourly in H. rewrite Hh in H.
    split; [congruence|auto]. }
  rewrite <- Hd in *.
  assert (Hne : data <> []) by (rewrite Hd; discriminate).
  assert (Hrect : rectangular (List.length c0) data).
  { rewrite (hourly_to_frame_block js data Hh Hne) in H.
    unfold pd_DataFrame in H. rewrite Hd in H. rewrite <- Hd in H.
    destruct (forallb _ data) eqn:F; [|discriminate].
    unfold rectangular. rewrite Forall_forall. intros kv Hin.
    rewrite forallb_forall in F. now apply Nat.eqb_eq, F. }
  right. destruct (lookup "time" data) as [tcol|] eqn:Ht.
  - left. exists data, tcol, (List.length c0). repeat split; auto.
    rewrite (hourly_to_frame_time js data tcol _ Hh Hne Hrect Ht) in H. congruence.
  - right. exists data, (List.length c0). repeat split; auto.
    rewrite (hourly_to_frame_plain js data _ Hh Hne Hrect Ht) in H. congruence.
Qed.

End NormalizerFacts.

Lemma lookup_length {A} k (l : list (string * list A)) c n :
  Forall (fun kv => List.length (snd kv) = n) l -> lookup k l = Some c -> List.length c = n.
Proof.
  induction 1 as [|[k' v] l Hv Hl IH]; simpl; [discriminate|].
  destruct (String.eqb k k'); [|exact IH]. intro E. now inversion E; subst.
Qed.

Section ParserClaims.
Context {P : Pandas}.

(** C2 (as amended).  On a payload whose hourly block is non-empty, has
    arrays of one length and a ["time"] array, [hourly_to_frame] returns
    without raising; its index holds every timestamp parsed as UTC, none
    discarded (a timestamp that fails to parse stays as a missing instant),
    in ascending order with the missing ones last; every other column is
    numeric, rows moved along with the index, non-numeric tokens missing. *)
Theorem hourly_to_frame_parses_sorts_coerces js data tcol n :
  hourly js = Some data -> data <> [] -> rectangular n data ->
  lookup "time" data = Some tcol ->
  exists order,
    Permutation order (seq 0 n)
    /\ index_sorted (take None order (map to_datetime_utc_cell tcol))
    /\ hourly_to_frame (ArgDict js)
       = Ok (mkFrame
               (DatetimeIndex (Some "time") (Some UTC)
                  (take None order (map to_datetime_utc_cell tcol)))
               (map (fun kv => (fst kv,
                                Float64 (take NaN order (map to_numeric_cell (snd kv)))))
                    (drop_col "time" data))).
Proof.
  intros Hh Hne Hrect Ht.
  exists (argsort (map to_datetime_utc_cell tcol)). split; [|split].
  - rewrite <- (lookup_length "time" data tcol n Hrect Ht).
    rewrite <- (length_map to_datetime_utc_cell tcol). apply argsort_perm.
  - apply take_argsort_sorted.
  - exact (hourly_to_frame_time js data tcol n Hh Hne Hrect Ht).
Qed.

(** C10 (as amended).  On a payload whose hourly block is non-empty, has
    arrays of one length and no ["time"] key, [hourly_to_frame] returns a frame with the
    positional index, the rows in payload order and every column coerced to
    numeric; the index has no zone, and a non-empty such frame makes the
    Time Localizer and the Aggregator raise. *)
Theorem hourly_to_frame_without_time js data n :
  hourly js = Some data -> data <> [] -> rectangular n data ->
  lookup "time" data = None ->
  exists df,
    hourly_to_frame (ArgDict js) = Ok df
    /\ index df = RangeIndex n
    /\ columns df
       = map (fun kv => (fst kv, Float64 (map to_numeric_cell (snd kv)))) data
    /\ raises (index_tz (index df))
    /\ (n <> 0 -> raises (to_local_naive df) /\ raises (daily_summary df)).
Proof.
  intros Hh Hne Hrect Ht. exists (plain_frame n data).
  split; [exact (hourly_to_frame_plain js data n Hh Hne Hrect Ht)|].
  split; [reflexivity|]. split; [reflexivity|].
  split; [simpl; now eexists|].
  intro Hn.
  assert (He : empty (plain_frame n data) = false).
  { unfold empty, plain_frame, nrows. simpl. rewrite length_map.
    destruct data; [congruence|]. simpl.
    apply Nat.eqb_neq in Hn. now rewrite Hn. }
  split.
  - unfold to_local_naive. rewrite He. simpl. now eexists.
  - unfold daily_summary. rewrite He. simpl. now eexists.
Qed.

Lemma to_datetime_cells_of_stamps tz (stamps : list Timestamp) :
  map to_datetime_utc_cell (cells_of_column (Datetime64 tz stamps)) = stamps.
Proof.
  simpl. rewrite map_map. rewrite <- (map_id stamps) at 2.
  apply map_ext. now intros [t|].
Qed.

Lemma to_numeric_cells_of_nums (vs : list num) :
  map to_numeric_cell (cells_of_column (Float64 vs)) = vs.
Proof.
  simpl. rewrite map_map. rewrite <- (map_id vs) at 2.
  apply map_ext. now intros [|q].
Qed.

Lemma reparse_time_frame js data tcol n q :
  rectangular n data -> lookup "time" data = Some tcol ->
  hourly js = Some data ->
  hourly_to_frame (ArgDict (mkPayload (Some (hourly_of_frame (time_frame data tcol))) q))
  = Ok (time_frame data tcol).
Proof.
  intros Hrect Ht _.
  set (keys := map to_datetime_utc_cell tcol).
  set (order := argsort keys).
  set (stamps := take None order keys).
  set (rest := map (fun kv => (fst kv, Float64 (take NaN order (map to_numeric_cell (snd kv)))))
                   (drop_col "time" data)).
  assert (Hlen : List.length stamps = List.length order) by apply take_length.
  set (data2 := hourly_of_frame (time_frame data tcol)).
  assert (Hd2 : data2 = ("time", cells_of_column (Datetime64 (Some UTC) stamps))
                        :: map (fun kv => (fst kv, cells_of_column (snd kv))) rest)
    by reflexivity.
  assert (Hrect2 : rectangular (List.length order) data2).
  { rewrite Hd2. constructor.
    - simpl. now rewrite length_map.
    - unfold rest. rewrite map_map. unfold rectangular. rewrite Forall_map.
      apply Forall_forall. intros kv _. simpl. rewrite length_map. apply take_length. }
  rewrite (hourly_to_frame_time _ data2 (cells_of_column (Datetime64 (Some UTC) stamps))
             (List.length order));
    [ | reflexivity | rewrite Hd2; discriminate | exact Hrect2 | rewrite Hd2; reflexivity ].
  f_equal. unfold time_frame.
  rewrite to_datetime_cells_of_stamps.
  fold keys. fold order. fold stamps.
  assert (Hsorted : argsort stamps = seq 0 (List.length stamps)).
  { apply argsort_sorted. apply take_argsort_sorted. }
  rewrite Hsorted, take_seq. f_equal.
  assert (Hdrop : drop_col "time" data2
                  = map (fun kv => (fst kv, cells_of_column (snd kv))) rest).
  { rewrite Hd2.
    transitivity (drop_col "time" (map (fun kv => (fst kv, cells_of_column (snd kv))) rest));
      [reflexivity|].
    apply drop_col_absent.
    rewrite (lookup_map cells_of_column "time" rest). unfold rest.
    rewrite (lookup_map (fun c => Float64 (take NaN order (map to_numeric_cell c)))
                        "time" (drop_col "time" data)).
    now rewrite lookup_drop_col. }
  rewrite Hdrop.
  unfold rest. rewrite !map_map. apply map_ext. intros [k c]. simpl fst. simpl snd.
  f_equal. f_equal.
  pose proof (to_numeric_cells_of_nums (take NaN order (map to_numeric_cell c))) as E.
  simpl in E. rewrite E.
  rewrite Hlen, <- (take_length NaN order (map to_numeric_cell c)).
  apply take_seq.
Qed.

Lemma reparse_plain_frame data n q :
  data <> [] -> rectangular n data -> lookup "time" data = None ->
  hourly_to_frame (ArgDict (mkPayload (Some (hourly_of_frame (plain_frame n data))) q))
  = Ok (plain_frame n data).
Proof.
  intros Hne Hrect Ht.
  set (data2 := hourly_of_frame (plain_frame n data)).
  assert (Hd2 : data2 = map (fun kv => (fst kv, cells_of_column (Float64 (map to_numeric_cell (snd kv))))) data).
  { unfold data2, hourly_of_frame, plain_frame. simpl. now rewrite map_map. }
  rewrite (hourly_to_frame_plain _ data2 n); try reflexivity.
  - unfold plain_frame. f_equal. rewrite Hd2, map_map. f_equal.
    apply map_ext. intros [k c]. simpl fst. simpl snd. f_equal. f_equal.
    apply (to_numeric_cells_of_nums (map to_numeric_cell c)).
  - rewrite Hd2. destruct data; [congruence|discriminate].
  - rewrite Hd2. unfold rectangular in *. rewrite Forall_map.
    eapply Forall_impl; [|exact Hrect]. intros kv Hkv. simpl.
    now rewrite !length_map.
  - rewrite Hd2.
    rewrite (lookup_map (fun c => cells_of_column (Float64 (map to_numeric_cell c))) "time" data).
    now rewrite Ht.
Qed.

(** C6 (as amended).  Re-parsing a normalised series that is given back as
    an hourly block yields the same series.  [hourly_to_frame] applied
    directly to the frame it returned does not: the frame has no ["hourly"]
    entry, and the result is the empty frame. *)
Theorem hourly_to_frame_reparse js df :
  hourly_to_frame (ArgDict js) = Ok df ->
  hourly_to_frame (ArgDict (mkPayload (Some (hourly_of_frame df)) (query_url js))) = Ok df
  /\ (has_key "hourly" (columns df) = false ->
      hourly_to_frame (ArgFrame df) = Ok empty_frame).
Proof.
  intro H. split.
  - destruct (hourly_to_frame_cases js df H)
      as [[-> _] | [(data & tcol & n & Hh & Hne & Hrect & Ht & ->)
                   | (data & n & Hh & Hne & Hrect & Ht & ->)]].
    + reflexivity.
    + eapply reparse_time_frame; eauto.
    + now apply reparse_plain_frame.
  - unfold has_key, hourly_to_frame, get_hourly.
    destruct (lookup "hourly" (columns df)); [discriminate|reflexivity].
Qed.

End ParserClaims.

(** C2, counterexample.  The first timestamp of [example_payload] does not
    parse; its row is kept, with a missing instant, after the two parsed
    ones. *)
Lemma unparsed_row_is_kept :
  parse_datetime "not a date" = None
  /\ hourly_to_frame (ArgDict example_payload) = Ok example_frame
  /\ In None (index_stamps (index example_frame))
  /\ nrows example_frame = 3.
Proof.
  split; [reflexivity|]. split; [vm_compute; reflexivity|].
  split; [simpl; auto|reflexivity].
Qed.

Lemma hourly_to_frame_parses_sorts_coerces_witness :
  exists order,
    Permutation order (seq 0 3)
    /\ index_sorted (take None order
         (map to_datetime_utc_cell
              [CStr "not a date"; CStr "2025-09-04T01:00"; CStr "2025-09-04T00:00"]))
    /\ hourly_to_frame (ArgDict example_payload)
       = Ok (mkFrame
               (DatetimeIndex (Some "time") (Some UTC)
                  (take None order
                     (map to_datetime_utc_cell
                        [CStr "not a date"; CStr "2025-09-04T01:00"; CStr "2025-09-04T00:00"])))
               (map (fun kv => (fst kv,
                                Float64 (take NaN order (map to_numeric_cell (snd kv)))))
                    (drop_col "time"
                       [ ("time", [CStr "not a date"; CStr "2025-09-04T01:00";
                                   CStr "2025-09-04T00:00"]);
                         ("temperature_2m", [CNum 70; CStr "n/a"; CNum 68]) ]))).
Proof.
  apply (hourly_to_frame_parses_sorts_coerces example_payload _ _ 3).
  - reflexivity.
  - discriminate.
  - repeat constructor.
  - reflexivity.
Defined.

Lemma hourly_to_frame_without_time_witness :
  exists df,
    hourly_to_frame (ArgDict example_plain_payload) = Ok df
    /\ index df = RangeIndex 3
    /\ columns df
       = map (fun kv => (fst kv, Float64 (map to_numeric_cell (snd kv))))
             [ ("temperature_2m", [CNum 70; CStr "n/a"; CNum 68]) ]
    /\ raises (index_tz (index df))
    /\ (3 <> 0 -> raises (to_local_naive df) /\ raises (daily_summary df)).
Proof.
  apply (hourly_to_frame_without_time example_plain_payload _ 3).
  - reflexivity.
  - discriminate.
  - repeat constructor.
  - reflexivity.
Defined.

(** C10, counterexample.  A non-empty block without a ["time"] array whose
    arrays differ in length: [hourly_to_frame] does not return a table, the
    table constructor raises [ValueError]. *)
Lemma hourly_to_frame_without_time_ragged :
  let block := [ ("temperature_2m", [CNum 70; CNum 72]); ("precipitation", [CNum 0]) ] in
  block <> []
  /\ lookup "time" block = None
  /\ hourly_to_frame (ArgDict (mkPayload (Some block) None))
     = Raise (PyExc ValueError "All arrays must be of the same length").
Proof.
  intro block. split; [discriminate|]. split; reflexivity.
Qed.

(** C6, counterexample.  Applied twice, [hourly_to_frame] returns the empty
    frame, not the three rows it returned the first time. *)
Lemma hourly_to_frame_twice_differs :
  hourly_to_frame (ArgDict example_payload) = Ok example_frame
  /\ hourly_to_frame (ArgFrame example_frame) = Ok empty_frame
  /\ example_frame <> empty_frame.
Proof.
  split; [vm_compute; reflexivity|]. split; [reflexivity|discriminate].
Qed.

Lemma hourly_to_frame_reparse_witness :
  hourly_to_frame (ArgDict (mkPayload (Some (hourly_of_frame example_frame)) None))
  = Ok example_frame
  /\ (has_key "hourly" (columns example_frame) = false ->
      hourly_to_frame (ArgFrame example_frame) = Ok empty_frame).
Proof.
  apply (hourly_to_frame_reparse example_payload example_frame).
  vm_compute. reflexivity.
Defined.

(** ** Invariants of the normalised series *)

Lemma NoDup_map_fst_filter {A B} (f : A * B -> bool) (l : list (A * B)) :
  NoDup (map fst l) -> NoDup (map fst (filter f l)).
Proof.
  induction l as [|x l IH]; simpl; intro H; [constructor|].
  inversion H as [|? ? Hx Hl]; subst.
  destruct (f x); simpl; auto. constructor; auto.
  intro Hin. apply Hx. apply in_map_iff in Hin. destruct Hin as (y & Hy & Hin).
  apply filter_In in Hin. apply in_map_iff. exists y. tauto.
Qed.

Section NormalizerInvariants.
Context {P : Pandas}.

(** Every column of a result of the normaliser is as long as its index. *)
Lemma hourly_to_frame_well_formed js df :
  hourly_to_frame (ArgDict js) = Ok df -> well_formed df.
Proof.
  intro H.
  destruct (hourly_to_frame_cases js df H)
    as [[-> _] | [(data & tcol & n & _ & _ & _ & _ & ->)
                 | (data & n & _ & _ & Hrect & _ & ->)]];
    unfold well_formed.
  - constructor.
  - unfold time_frame, nrows. simpl. rewrite Forall_map.
    apply Forall_forall. intros kv _. simpl. now rewrite !take_length.
  - unfold plain_frame, nrows. simpl. rewrite Forall_map.
    eapply Forall_impl; [|exact Hrect]. intros kv Hkv. simpl.
    now rewrite length_map.
Qed.

(** A block of distinct, named measurements with a ["time"] array is
    normalised into a series that the cache can store and return. *)
Lemma time_frame_normalized data tcol :
  NoDup (map fst data) -> ~ In "" (map fst data) ->
  normalized_utc (time_frame data tcol).
Proof.
  intros Hnd Hnamed. split; [now eexists|]. split.
  - unfold col_names, time_frame. simpl. rewrite map_map. simpl.
    now apply NoDup_map_fst_filter.
  - unfold time_frame, nrows. simpl. rewrite Forall_map.
    apply Forall_forall. intros kv Hin. simpl.
    apply filter_In in Hin. destruct Hin as [Hin Hk].
    eexists. split; [reflexivity|]. split; [now rewrite !take_length|]. split.
    + intro E. apply Hnamed. rewrite <- E. now apply in_map.
    + intro E. rewrite E in Hk. now rewrite String.eqb_refl in Hk.
Qed.

End NormalizerInvariants.

(** ** Rolling windows *)

Lemma count_valid_filter vs : count_valid vs = List.length (filter notna_num vs).
Proof.
  unfold count_valid, valid. induction vs as [|[|q] vs IH]; simpl; auto.
Qed.

Lemma filter_none {A} (f : A -> bool) l :
  (forall x, In x l -> f x = false) -> filter f l = [].
Proof.
  induction l as [|a l IH]; simpl; intro H; auto.
  rewrite (H a) by auto. apply IH. intros; apply H; auto.
Qed.

Lemma filter_length_map {A B} (f : B -> bool) (g : A -> B) l :
  List.length (filter f (map g l)) = List.length (filter (fun x => f (g x)) l).
Proof.
  induction l as [|a l IH]; simpl; auto.
  destruct (f (g a)); simpl; now rewrite IH.
Qed.

Lemma list_as_map_nth {A} (d : A) l :
  l = map (fun j => nth j l d) (seq 0 (List.length l)).
Proof. symmetry. apply (take_seq d l). Qed.

Lemma firstn_seq n s len : firstn n (seq s len) = seq s (Nat.min n len).
Proof.
  revert s len. induction n as [|n IH]; intros s [|len]; simpl; auto.
  now rewrite IH.
Qed.

(** The window as the samples at positions [lo .. i]. *)
Lemma window_positions (vals : list num) W i :
  i < List.length vals ->
  window vals W i
  = map (fun j => nth j vals NaN) (seq (i + 1 - W) (i + 1 - (i + 1 - W))).
Proof.
  intro Hi. unfold window.
  rewrite (list_as_map_nth NaN vals) at 1.
  rewrite firstn_map, firstn_seq, skipn_map, skipn_seq.
  replace (Nat.min (i + 1) (List.length vals)) with (i + 1) by lia.
  reflexivity.
Qed.

(** The model's window and the trailing samples [S[i-W+1 .. i]] hold the
    same number of valid values. *)
Lemma valid_in_trailing_window vals W i :
  (0 <= W)%Z -> i < List.length vals ->
  valid_in_trailing vals W i = count_valid (window vals (Z.to_nat W) i).
Proof.
  intros HW Hi. unfold valid_in_trailing.
  rewrite count_valid_filter, window_positions by exact Hi.
  set (lo := i + 1 - Z.to_nat W).
  rewrite filter_length_map.
  replace (seq 0 (List.length vals))
    with (seq 0 lo ++ seq lo (i + 1 - lo) ++ seq (i + 1) (List.length vals - (i + 1))).
  2:{ replace (List.length vals)
        with (lo + ((i + 1 - lo) + (List.length vals - (i + 1)))) at 2 by lia.
      rewrite !seq_app. simpl. do 3 f_equal. lia. }
  rewrite !filter_app, !length_app.
  rewrite (filter_none _ (seq 0 lo)), (filter_none _ (seq (i + 1) _)); simpl.
  - rewrite Nat.add_0_r. f_equal. apply filter_ext_in.
    intros j Hj. apply in_seq in Hj.
    replace (Z.of_nat i - W <? Z.of_nat j)%Z with true by (symmetry; apply Z.ltb_lt; lia).
    replace (j <=? i)%nat with true by (symmetry; apply Nat.leb_le; lia).
    reflexivity.
  - intros j Hj. apply in_seq in Hj.
    replace (j <=? i)%nat with false by (symmetry; apply Nat.leb_gt; lia).
    now rewrite andb_false_r.
  - intros j Hj. apply in_seq in Hj.
    replace (Z.of_nat i - W <? Z.of_nat j)%Z with false
      by (symmetry; apply Z.ltb_ge; lia).
    reflexivity.
Qed.

Lemma zip_with_length {A B C} (f : A -> B -> C) l r :
  List.length l = List.length r -> List.length (zip_with f l r) = List.length l.
Proof.
  revert r. induction l as [|a l IH]; destruct r; simpl; try discriminate; auto.
Qed.

Lemma zip_with_nth {A B C} (f : A -> B -> C) l r i da db dc :
  i < List.length l -> List.length l = List.length r ->
  nth i (zip_with f l r) dc = f (nth i l da) (nth i r db).
Proof.
  revert r i. induction l as [|a l IH]; destruct r; simpl; intros i Hi Hl;
    try discriminate; try lia.
  destruct i; auto. apply IH; lia.
Qed.

Lemma check_rolling_ok W : (4 <= W)%Z -> check_rolling W (Z.max 4 (W / 4)) = Ok tt.
Proof.
  intro H. unfold check_rolling.
  assert (W / 4 <= W)%Z by (apply Z.div_le_upper_bound; lia).
  replace (W <? 0)%Z with false by (symmetry; apply Z.ltb_ge; lia).
  replace (W <? Z.max 4 (W / 4))%Z with false by (symmetry; apply Z.ltb_ge; lia).
  reflexivity.
Qed.

Lemma check_rolling_raises W :
  (W < 4)%Z -> raises (check_rolling W (Z.max 4 (W / 4))).
Proof.
  intro H. unfold check_rolling.
  destruct (W <? 0)%Z; [now eexists|].
  replace (W <? Z.max 4 (W / 4))%Z with true by (symmetry; apply Z.ltb_lt; lia).
  now eexists.
Qed.

Lemma rolling_mean_ok vals W :
  (4 <= W)%Z ->
  rolling_mean vals W (min_periods W)
  = Ok (map (mean_at vals W) (seq 0 (List.length vals))).
Proof.
  intro H. unfold rolling_mean, min_periods. now rewrite check_rolling_ok.
Qed.

Lemma rolling_std_ok vals W :
  (4 <= W)%Z ->
  rolling_std vals W (min_periods W)
  = Ok (map (std_at vals W) (seq 0 (List.length vals))).
Proof.
  intro H. unfold rolling_std, min_periods. now rewrite check_rolling_ok.
Qed.

(** What the scorer returns on a series with at least one sample. *)
Lemma rolling_anomaly_ok (S : Series num) W :
  s_values S <> [] -> (4 <= W)%Z ->
  exists out,
    rolling_anomaly (Some S) W = Ok (Some out)
    /\ s_index out = s_index S
    /\ List.length (s_values out) = List.length (s_values S)
    /\ forall i, i < List.length (s_values S) ->
         nth i (s_values out) Missing = score_at (s_values S) W i.
Proof.
  intros Hne HW. unfold rolling_anomaly.
  destruct (s_values S) as [|v vs] eqn:Hv; [congruence|].
  rewrite <- Hv in *. clear Hv v vs.
  replace (List.length (s_values S) =? 0)%nat with false.
  2:{ symmetry. apply Nat.eqb_neq. destruct (s_values S); simpl; congruence. }
  fold (min_periods W).
  rewrite rolling_mean_ok, rolling_std_ok by exact HW. simpl.
  eexists. split; [reflexivity|]. simpl.
  assert (L1 : List.length (zip_with num_sub (s_values S)
                              (map (mean_at (s_values S) W) (seq 0 (List.length (s_values S)))))
               = List.length (s_values S)).
  { apply zip_with_length. now rewrite length_map, length_seq. }
  split; [reflexivity|]. split.
  - rewrite zip_with_length; [exact L1|].
    now rewrite L1, length_map, length_seq.
  - intros i Hi.
    rewrite (zip_with_nth num_div _ _ i NaN RNaN Missing);
      [ | now rewrite L1 | now rewrite L1, length_map, length_seq ].
    rewrite (zip_with_nth num_sub _ _ i NaN NaN NaN);
      [ | exact Hi | now rewrite length_map, length_seq ].
    unfold score_at. f_equal; [f_equal|].
    + rewrite (nth_indep _ NaN (mean_at (s_values S) W 0))
        by (now rewrite length_map, length_seq).
      rewrite (map_nth (mean_at (s_values S) W)). now rewrite seq_nth.
    + rewrite (nth_indep _ RNaN (std_at (s_values S) W 0))
        by (now rewrite length_map, length_seq).
      rewrite (map_nth (std_at (s_values S) W)). now rewrite seq_nth.
Qed.

Lemma rolling_anomaly_raises (S : Series num) W :
  s_values S <> [] -> (W < 4)%Z -> raises (rolling_anomaly (Some S) W).
Proof.
  intros Hne HW. unfold rolling_anomaly.
  replace (List.length (s_values S) =? 0)%nat with false.
  2:{ symmetry. apply Nat.eqb_neq. destruct (s_values S); simpl; congruence. }
  unfold rolling_mean. destruct (check_rolling_raises W HW) as [e He].
  rewrite He. simpl. now eexists.
Qed.

Lemma score_at_below_min_periods vals W i :
  (0 <= W)%Z -> i < List.length vals ->
  (Z.of_nat (valid_in_trailing vals W i) < min_periods W)%Z ->
  score_at vals W i = Missing.
Proof.
  intros HW Hi Hc. rewrite valid_in_trailing_window in Hc by assumption.
  unfold score_at, mean_at, std_at.
  replace (min_periods W <=? _)%Z with false by (symmetry; apply Z.leb_gt; exact Hc).
  simpl. now destruct (nth i vals NaN).
Qed.

(** C4.  A null or empty input is returned as it is.  On any other series
    the scorer returns a series over the same index when the window is at
    least 4 samples (a shorter window is refused by [rolling], whose
    [min_periods] would exceed it); whatever it returns has a defined score
    at position [i] only if at least [max(4, W // 4)] of the samples
    [S[i-W+1 .. i]] are valid, and a missing one otherwise. *)
Theorem rolling_anomaly_min_periods (s : option (Series num)) (W : Z) :
  (s = None -> rolling_anomaly s W = Ok None)
  /\ (forall ix, s = Some (mkSeries ix []) ->
        rolling_anomaly s W = Ok (Some (mkSeries ix [])))
  /\ (forall S, s = Some S -> s_values S <> [] ->
        ((4 <= W)%Z -> returns (rolling_anomaly s W))
        /\ ((W < 4)%Z -> raises (rolling_anomaly s W))
        /\ forall out, rolling_anomaly s W = Ok (Some out) ->
             s_index out = s_index S
             /\ List.length (s_values out) = List.length (s_values S)
             /\ forall i, i < List.length (s_values S) ->
                  (is_missing (nth i (s_values out) Missing) = false ->
                   (min_periods W <= Z.of_nat (valid_in_trailing (s_values S) W i))%Z)
                  /\ ((Z.of_nat (valid_in_trailing (s_values S) W i) < min_periods W)%Z ->
                      nth i (s_values out) Missing = Missing)).
Proof.
  split; [now intros ->|]. split; [now intros ix ->|].
  intros S -> Hne. split; [|split].
  - intro HW. destruct (rolling_anomaly_ok S W Hne HW) as (out & H & _).
    now exists (Some out).
  - intro HW. now apply rolling_anomaly_raises.
  - intros out Hout.
    destruct (Z.lt_ge_cases W 4) as [HW|HW].
    { destruct (rolling_anomaly_raises S W Hne HW) as [e He]. congruence. }
    destruct (rolling_anomaly_ok S W Hne HW) as (out' & H & Hix & Hlen & Hnth).
    assert (out' = out) by congruence. subst out'.
    split; [exact Hix|]. split; [exact Hlen|].
    intros i Hi. rewrite (Hnth i Hi).
    assert (Hlow : (Z.of_nat (valid_in_trailing (s_values S) W i) < min_periods W)%Z ->
                   score_at (s_values S) W i = Missing)
      by (apply score_at_below_min_periods; [lia|exact Hi]).
    split; [|exact Hlow].
    intro Hdef. destruct (Z.lt_ge_cases (Z.of_nat (valid_in_trailing (s_values S) W i))
                                        (min_periods W)) as [Hc|Hc]; [|lia].
    rewrite (Hlow Hc) in Hdef. discriminate.
Qed.

(** C7.  Where the trailing window holds enough valid samples and their
    standard deviation is zero, the score is missing or infinite; it is no
    finite number, zero included. *)
Theorem rolling_anomaly_zero_std (S : Series num) (W : Z) out sd i v :
  rolling_anomaly (Some S) W = Ok (Some out) ->
  rolling_std (s_values S) W (min_periods W) = Ok sd ->
  i < List.length (s_values S) ->
  (min_periods W <= Z.of_nat (valid_in_trailing (s_values S) W i))%Z ->
  nth i sd RNaN = Sqrt v -> (v == 0)%Q ->
  (is_missing (nth i (s_values out) Missing) = true
   \/ is_infinite (nth i (s_values out) Missing) = true)
  /\ forall d v', nth i (s_values out) Missing <> Quot d v'.
Proof.
  intros Hout Hsd Hi Hc Hv Hz.
  assert (Hne : s_values S <> []) by (destruct (s_values S); simpl in *; [lia|discriminate]).
  destruct (Z.lt_ge_cases W 4) as [HW|HW].
  { destruct (rolling_anomaly_raises S W Hne HW) as [e He]. congruence. }
  destruct (rolling_anomaly_ok S W Hne HW) as (out' & H & _ & _ & Hnth).
  assert (out' = out) by congruence. subst out'.
  rewrite (Hnth i Hi).
  rewrite rolling_std_ok in Hsd by exact HW. inversion Hsd; subst sd. clear Hsd.
  rewrite (nth_indep _ RNaN (std_at (s_values S) W 0)) in Hv
    by (now rewrite length_map, length_seq).
  rewrite (map_nth (std_at (s_values S) W)) in Hv. rewrite seq_nth in Hv by exact Hi.
  simpl in Hv. unfold score_at. rewrite Hv.
  assert (Hb : Qeq_bool v 0 = true) by (now apply Qeq_bool_iff).
  destruct (num_sub (nth i (s_values S) NaN) (mean_at (s_values S) W i)) as [|x]; simpl.
  - split; [now left|discriminate].
  - rewrite Hb. destruct (x ?= 0)%Q; simpl; split; auto; discriminate.
Qed.

(** C4 and C7 on a series of four equal samples and a fifth one. *)
Lemma rolling_anomaly_min_periods_witness :
  let S := mkSeries (RangeIndex 5) [Val 5; Val 5; Val 5; Val 5; Val 7] in
  (4 <= 4)%Z /\ returns (rolling_anomaly (Some S) 4).
Proof.
  intro S. split; [lia|].
  apply (proj1 (proj2 (proj2 (rolling_anomaly_min_periods (Some S) 4)) S eq_refl
                  ltac:(discriminate))).
  lia.
Defined.

Lemma rolling_anomaly_zero_std_witness :
  let S := mkSeries (RangeIndex 5) [Val 5; Val 5; Val 5; Val 5; Val 7] in
  let out := mkSeries (RangeIndex 5) [Missing; Missing; Missing; Missing; Quot (3 # 2) 1] in
  (is_missing (nth 3 (s_values out) Missing) = true
   \/ is_infinite (nth 3 (s_values out) Missing) = true)
  /\ forall d v', nth 3 (s_values out) Missing <> Quot d v'.
Proof.
  intros S out.
  apply (rolling_anomaly_zero_std S 4 out [RNaN; RNaN; RNaN; Sqrt 0; Sqrt 1] 3 0).
  - vm_compute. reflexivity.
  - vm_compute. reflexivity.
  - simpl. lia.
  - vm_compute. discriminate.
  - reflexivity.
  - reflexivity.
Defined.

(** ** A window of equal samples *)

Lemma fold_Qplus_nonneg (l : list Q) (a : Q) :
  Forall (fun y => 0 <= y)%Q l ->
  (a <= fold_left Qplus l a)%Q
  /\ ((fold_left Qplus l a == a)%Q -> Forall (fun y => y == 0)%Q l).
Proof.
  revert a. induction l as [|y l IH]; intros a H; simpl.
  - split; [apply Qle_refl|constructor].
  - inversion H as [|? ? Hy Hl]; subst.
    destruct (IH (a + y)%Q Hl) as [Hle Hz].
    assert (Ha : (a <= a + y)%Q).
    { rewrite <- (Qplus_0_r a) at 1. apply Qplus_le_r. exact Hy. }
    split; [eapply Qle_trans; eauto|].
    intro E.
    assert (Hy0 : (y == 0)%Q).
    { apply Qle_antisym; [|exact Hy].
      apply (Qplus_le_r y 0 a). rewrite Qplus_0_r.
      eapply Qle_trans; [exact Hle|]. rewrite E. apply Qle_refl. }
    constructor; [exact Hy0|].
    apply Hz. rewrite E, Hy0. now rewrite Qplus_0_r.
Qed.

Lemma Qsquare_nonneg (x : Q) : (0 <= x * x)%Q.
Proof.
  destruct (Qlt_le_dec x 0) as [H|H].
  - setoid_replace (x * x)%Q with ((- x) * (- x))%Q by ring.
    apply Qmult_le_0_compat; apply (Qopp_le_compat x 0); now apply Qlt_le_weak.
  - now apply Qmult_le_0_compat.
Qed.

(** A zero variance means that every sample equals the mean. *)
Lemma sample_var_zero (qs : list Q) :
  1 < List.length qs -> (sample_var qs == 0)%Q ->
  Forall (fun x => x == Qsum qs / inject_Z (Z.of_nat (List.length qs)))%Q qs.
Proof.
  intros Hn Hv. unfold sample_var in Hv. rewrite Qred_correct in Hv.
  set (n := inject_Z (Z.of_nat (List.length qs))) in *.
  set (m := (Qsum qs / n)%Q) in *.
  assert (Hn1 : ~ (n - 1 == 0)%Q).
  { unfold n. intro E.
    assert (E' : (inject_Z (Z.of_nat (List.length qs)) == inject_Z 1)%Q).
    { rewrite <- (Qplus_0_l (inject_Z 1)), <- E. unfold n. ring. }
    apply (proj1 (inject_Z_injective _ _)) in E'. lia. }
  assert (Hs : (Qsum (map (fun x => (x - m) * (x - m)) qs) == 0)%Q).
  { setoid_replace (Qsum (map (fun x => (x - m) * (x - m)) qs))%Q
      with ((Qsum (map (fun x => (x - m) * (x - m)) qs) / (n - 1)) * (n - 1))%Q
      by (field; exact Hn1).
    rewrite Hv. ring. }
  unfold Qsum in Hs.
  destruct (fold_Qplus_nonneg (map (fun x => (x - m) * (x - m))%Q qs) 0%Q) as [_ Hz].
  { rewrite Forall_map. apply Forall_forall. intros x _. apply Qsquare_nonneg. }
  specialize (Hz Hs). rewrite Forall_map in Hz.
  eapply Forall_impl; [|exact Hz]. intros x Hx. simpl in Hx.
  apply Qmult_integral in Hx.
  assert (Hd : (x - m == 0)%Q) by tauto.
  setoid_replace x with ((x - m) + m)%Q by ring. rewrite Hd. ring.
Qed.

Lemma valid_In (vs : list num) (x : Q) : In (Val x) vs -> In x (valid vs).
Proof.
  unfold valid. intro H. apply in_flat_map. exists (Val x). simpl. auto.
Qed.

Lemma window_holds_sample vals W i :
  i < List.length vals -> 0 < W -> In (nth i vals NaN) (window vals W i).
Proof.
  intros Hi HW. rewrite window_positions by exact Hi.
  apply in_map_iff. exists i. split; [reflexivity|]. apply in_seq. lia.
Qed.

(** With exact arithmetic a zero deviation leaves the score missing: the
    sample, when there is one, equals the mean, and the quotient is 0/0. *)
Lemma score_at_zero_std vals W i v :
  (0 < W)%Z -> i < List.length vals ->
  std_at vals W i = Sqrt v -> (v == 0)%Q ->
  score_at vals W i = Missing.
Proof.
  intros HW Hi Hs Hv. unfold score_at. rewrite Hs.
  unfold std_at in Hs. unfold mean_at.
  set (w := window vals (Z.to_nat W) i) in *.
  destruct (min_periods W <=? Z.of_nat (count_valid w))%Z eqn:Em; [|discriminate].
  destruct (1 <? count_valid w)%nat eqn:E1; [|discriminate].
  simpl in Hs. inversion Hs; subst v. clear Hs.
  apply Nat.ltb_lt in E1. unfold count_valid in E1.
  pose proof (sample_var_zero (valid w) E1 Hv) as Hall.
  destruct (nth i vals NaN) as [|x] eqn:Ex; [reflexivity|].
  assert (Hin : In x (valid w)).
  { apply valid_In. rewrite <- Ex. apply window_holds_sample; [exact Hi|lia]. }
  rewrite Forall_forall in Hall. specialize (Hall x Hin).
  unfold mean. destruct (valid w) as [|q qs] eqn:Eq; [destruct Hin|].
  rewrite <- Eq in *. unfold num_sub, num_div.
  replace (Qeq_bool (sample_var (valid w)) 0) with true
    by (symmetry; now apply Qeq_bool_iff).
  assert (Hz : (x - Qred (Qsum (valid w) / inject_Z (Z.of_nat (List.length (valid w)))) == 0)%Q).
  { rewrite Qred_correct, <- Hall. ring. }
  apply Qeq_alt in Hz. now rewrite Hz.
Qed.

(** The scorer itself: a position whose window has zero deviation is
    missing in the result. *)
Lemma rolling_anomaly_zero_std_missing (S : Series num) (W : Z) out i v :
  rolling_anomaly (Some S) W = Ok (Some out) ->
  i < List.length (s_values S) ->
  std_at (s_values S) W i = Sqrt v -> (v == 0)%Q ->
  nth i (s_values out) Missing = Missing.
Proof.
  intros Hout Hi Hs Hv.
  assert (Hne : s_values S <> []) by (destruct (s_values S); simpl in *; [lia|discriminate]).
  destruct (Z.lt_ge_cases W 4) as [HW|HW].
  { destruct (rolling_anomaly_raises S W Hne HW) as [e He]. congruence. }
  destruct (rolling_anomaly_ok S W Hne HW) as (out' & H & _ & _ & Hnth).
  assert (out' = out) by congruence. subst out'.
  rewrite (Hnth i Hi). apply (score_at_zero_std _ W i v); auto. lia.
Qed.

Section AggregatorClaims.
Context {P : Pandas}.

Lemma daily_summary_empty df :
  empty df = true -> daily_summary df = Ok empty_frame.
Proof. intro H. unfold daily_summary. now rewrite H. Qed.

Lemma agg_column_labels vals bins cols entry out :
  agg_column vals bins cols entry = Ok out ->
  map fst out = map (fun s => (fst entry, stat_name s)) (snd entry).
Proof.
  unfold agg_column. destruct (lookup (fst entry) cols) as [[vs|?|? ?]|];
    try discriminate.
  intro H. inversion H; subst. now rewrite map_map.
Qed.

Lemma collect_labels {A B C} (f : A -> result (list (C * B))) (g : A -> list C) l out :
  (forall x ys, f x = Ok ys -> map fst ys = g x) ->
  collect f l = Ok out -> map fst out = flat_map g l.
Proof.
  intro Hf. revert out. induction l as [|x l IH]; simpl; intros out H.
  - now inversion H.
  - destruct (f x) as [ys|] eqn:Ex; simpl in H; [|discriminate].
    destruct (collect f l) as [zs|]; simpl in H; [|discriminate].
    inversion H; subst. rewrite map_app. f_equal; auto.
Qed.

(** The labels do not depend on the data. *)
Lemma daily_summary_columns df out :
  empty df = false -> daily_summary df = Ok out -> col_names out = daily_columns.
Proof.
  intros He H. unfold daily_summary in H. rewrite He in H.
  destruct (resample_D_agg df agg_spec) as [[ix cols]|] eqn:E; simpl in H; [|discriminate].
  inversion H; subst. clear H. unfold col_names. simpl. rewrite map_map. simpl.
  unfold resample_D_agg in E.
  destruct (index df) as [|name tz vals|]; try discriminate.
  cbv zeta in E.
  destruct (day_bins (wall_clock tz vals)) as [bins|]; cbn [bind] in E; [|discriminate].
  destruct (forallb _ agg_spec); [|discriminate].
  destruct (collect _ agg_spec) as [cs|] eqn:Ec; simpl in E; [|discriminate].
  inversion E; subst. clear E.
  apply (collect_labels _ (fun e => map (fun s => (fst e, stat_name s)) (snd e))) in Ec.
  2:{ intros x ys. apply agg_column_labels. }
  rewrite <- (map_map fst flat_name), Ec. reflexivity.
Qed.


(** C5 (as amended).  An empty input gives the empty table, which has no
    rows.  In a table that holds the three aggregated columns, wind speed
    among them, three hourly rows of one local day with temperatures 70, 72,
    68 and precipitation 0, 1.0, 0 give one row for that day, with
    temperature mean 70, min 68, max 72 and precipitation sum 1.0.  The
    columns of a non-empty result are always the five
    [<measurement>_<statistic>] labels. *)
Theorem daily_summary_single_day name (t0 t1 t2 d : Z) cols ws :
  day_of t0 = d -> day_of t1 = d -> day_of t2 = d ->
  lookup "temperature_2m" cols = Some (Float64 [Val 70; Val 72; Val 68]) ->
  lookup "precipitation" cols = Some (Float64 [Val 0; Val 1; Val 0]) ->
  lookup "wind_speed_10m" cols = Some (Float64 ws) -> List.length ws = 3 ->
  daily_summary (mkFrame (DatetimeIndex name None [Some t0; Some t1; Some t2]) cols)
  = Ok (mkFrame (DatetimeIndex name None [Some (d * day_ns)%Z])
                [ ("temperature_2m_mean", Float64 [Val 70]);
                  ("temperature_2m_min", Float64 [Val 68]);
                  ("temperature_2m_max", Float64 [Val 72]);
                  ("precipitation_sum", Float64 [Val 1]);
                  ("wind_speed_10m_mean", Float64 [mean ws]) ])
  /\ (forall df, empty df = true ->
        daily_summary df = Ok empty_frame /\ nrows empty_frame = 0)
  /\ (forall df out, empty df = false -> daily_summary df = Ok out ->
        col_names out = daily_columns).
Proof.
  intros H0 H1 H2 Ht Hp Hw Hlen.
  split; [|split].
  2:{ intros df He. split; [now apply daily_summary_empty|reflexivity]. }
  2:{ apply daily_summary_columns. }
  destruct ws as [|w0 [|w1 [|w2 [|? ?]]]]; try discriminate. clear Hlen.
  unfold daily_summary.
  assert (He : empty (mkFrame (DatetimeIndex name None [Some t0; Some t1; Some t2]) cols)
               = false).
  { unfold empty, nrows. simpl. destruct cols; [discriminate|reflexivity]. }
  rewrite He. unfold resample_D_agg. cbn [index columns].
  assert (Hk : forallb (fun e : string * list stat => has_key (fst e) cols) agg_spec = true).
  { unfold agg_spec, has_key. cbn [forallb fst]. now rewrite Ht, Hp, Hw. }
  assert (Hb : day_bins (wall_clock None [Some t0; Some t1; Some t2]) = Ok [d]).
  { unfold wall_clock, day_bins, days_present. cbn [flat_map app].
    rewrite H0, H1, H2. cbn [fold_left].
    rewrite !Z.min_id, !Z.max_id.
    replace (d - d + 1)%Z with 1%Z by lia.
    change (Z.to_nat 1) with 1. cbn [seq map Z.of_nat]. do 2 f_equal. lia. }
  cbv zeta. rewrite Hb. cbn [bind]. rewrite Hk.
  unfold wall_clock, agg_spec. cbn [collect].
  unfold agg_column. cbn [fst snd]. rewrite Ht, Hp, Hw.
  unfold rows_of_day. cbn [combine flat_map fst snd app map].
  rewrite H0, H1, H2, Z.eqb_refl. cbn [app bind].
  reflexivity.
Qed.

End AggregatorClaims.

(** C5, counterexample.  The three rows of the claim in a table that holds
    temperature and precipitation and no wind speed: [daily_summary] yields
    no row, it raises [KeyError]. *)
Lemma daily_summary_without_wind_raises :
  let t := 1756944000000000000%Z in
  let df := mkFrame (DatetimeIndex (Some "time") None
                       [Some t; Some (t + hour_ns)%Z; Some (t + 2 * hour_ns)%Z])
                    [ ("temperature_2m", Float64 [Val 70; Val 72; Val 68]);
                      ("precipitation", Float64 [Val 0; Val 1; Val 0]) ] in
  day_of t = day_of (t + 2 * hour_ns)%Z
  /\ empty df = false
  /\ daily_summary df = Raise (PyExc KeyError "Column(s) do not exist").
Proof.
  intros t df. split; [reflexivity|]. split; [reflexivity|].
  vm_compute. reflexivity.
Qed.

Lemma daily_summary_single_day_witness :
  let t := 1756944000000000000%Z in
  daily_summary
    (mkFrame (DatetimeIndex (Some "time") None
                [Some t; Some (t + hour_ns)%Z; Some (t + 2 * hour_ns)%Z])
             [ ("temperature_2m", Float64 [Val 70; Val 72; Val 68]);
               ("precipitation", Float64 [Val 0; Val 1; Val 0]);
               ("wind_speed_10m", Float64 [Val 2; NaN; Val 3]) ])
  = Ok (mkFrame (DatetimeIndex (Some "time") None [Some (20335 * day_ns)%Z])
                [ ("temperature_2m_mean", Float64 [Val 70]);
                  ("temperature_2m_min", Float64 [Val 68]);
                  ("temperature_2m_max", Float64 [Val 72]);
                  ("precipitation_sum", Float64 [Val 1]);
                  ("wind_speed_10m_mean", Float64 [mean [Val 2; NaN; Val 3]]) ])
  /\ (forall df, empty df = true ->
        daily_summary df = Ok empty_frame /\ nrows empty_frame = 0)
  /\ (forall df out, empty df = false -> daily_summary df = Ok out ->
        col_names out = daily_columns).
Proof.
  intro t.
  apply (daily_summary_single_day (Some "time") t (t + hour_ns) (t + 2 * hour_ns) 20335);
    reflexivity.
Defined.

(** ** The cache file *)

Lemma fs_write_same path file fs : fs_write path file fs path = Some file.
Proof. unfold fs_write. now rewrite String.eqb_refl. Qed.

Lemma map_combine_seq {A B} (F : nat * A -> B) (d : A) s l :
  map F (combine (seq s (List.length l)) l)
  = map (fun p => F (s + p, nth p l d)) (seq 0 (List.length l)).
Proof.
  revert s. induction l as [|a l IH]; intro s; simpl; [reflexivity|].
  rewrite Nat.add_0_r. f_equal.
  rewrite IH, <- seq_shift, map_map.
  apply map_ext. intro p. now rewrite Nat.add_succ_r.
Qed.

Lemma fix_labels_fixed h : Forall (fun s => s <> "") h -> fix_labels h = h.
Proof.
  intro H. unfold fix_labels.
  rewrite (map_combine_seq _ "" 0 h).
  transitivity (map (fun j => nth j h "") (seq 0 (List.length h)));
    [|symmetry; apply list_as_map_nth].
  apply map_ext_in. intros p Hp. apply in_seq in Hp. simpl.
  rewrite Forall_forall in H.
  destruct (String.eqb (nth p h "") "") eqn:E; [|reflexivity].
  apply String.eqb_eq in E. exfalso. apply (H (nth p h "")); [|exact E].
  apply nth_In. lia.
Qed.

Lemma data_labels_first name names :
  data_labels 0 (name :: names) = combine (seq 1 (List.length names)) names.
Proof.
  unfold data_labels. simpl. apply forallb_filter_id.
  rewrite forallb_forall. intros [j l] Hin. apply in_combine_l in Hin.
  apply in_seq in Hin. simpl. destruct j; [lia|reflexivity].
Qed.

Lemma date_fields_of_stamps aware vals :
  forallb (is_date_field aware) (map (field_of_ts aware) vals) = true.
Proof.
  induction vals as [|[t|] vals IH]; simpl; auto.
  now rewrite eqb_reflx.
Qed.

Lemma stamps_of_date_fields aware vals :
  map ts_of_field (map (field_of_ts aware) vals) = vals.
Proof.
  rewrite map_map. rewrite <- (map_id vals) at 2. apply map_ext. now intros [t|].
Qed.

Lemma nth_nil {A} i (d : A) : nth i [] d = d.
Proof. now destruct i. Qed.

(** Field [p] of row [i] is field [i] of column [p]. *)
Lemma nth_map_nth {A} (cols : list (list A)) i p (d : A) :
  nth p (map (fun c => nth i c d) cols) d = nth i (nth p cols []) d.
Proof.
  revert p. induction cols as [|c cols IH]; intros [|p]; simpl; auto;
    now destruct i.
Qed.

Section CacheFacts.
Context {P : Pandas}.

Lemma infer_numeric_column vs : infer_column (map field_of_num vs) = Float64 vs.
Proof.
  unfold infer_column.
  replace (forallb is_numeric_field (map field_of_num vs)) with true.
  - f_equal. rewrite map_map. rewrite <- (map_id vs) at 2.
    apply map_ext. now intros [|q].
  - symmetry. apply forallb_forall. intros f Hf. apply in_map_iff in Hf.
    destruct Hf as ([|q] & <- & _); reflexivity.
Qed.

(** Reading the dates of a stored index gives its instants back, zone
    annotation or not, and [load_cache] makes the index UTC. *)
Lemma index_read_back aware vals :
  let ix := parse_dates_index "time" (map (field_of_ts aware) vals) in
  (index_tz ix = Ok None /\ tz_localize_utc ix = DatetimeIndex (Some "time") (Some UTC) vals)
  \/ (index_tz ix = Ok (Some UTC) /\ ix = DatetimeIndex (Some "time") (Some UTC) vals).
Proof.
  unfold parse_dates_index.
  destruct (forallb (is_date_field false) (map (field_of_ts aware) vals)) eqn:E.
  - left. simpl. now rewrite stamps_of_date_fields.
  - destruct aware.
    + right. rewrite date_fields_of_stamps. simpl. now rewrite stamps_of_date_fields.
    + now rewrite date_fields_of_stamps in E.
Qed.

Lemma read_csv_rows file name k :
  position name (fix_labels (header file)) = Some k ->
  records file <> [] ->
  read_csv file name
  = Ok (mkFrame
          (parse_dates_index name (map (fun r => nth k r FEmpty) (records file)))
          (map (fun jl => (snd jl,
                           infer_column (map (fun r => nth (fst jl) r FEmpty) (records file))))
               (data_labels k (fix_labels (header file))))).
Proof.
  intros Hp Hr. unfold read_csv. rewrite Hp.
  destruct (records file); [congruence|reflexivity].
Qed.

(** What [load_cache] returns for a stored series with a time index, at
    least one row and measurement columns. *)
Lemma load_stored_series df lat lon fs tz vals :
  fs (cache_path lat lon) = Some (to_csv df) ->
  index df = DatetimeIndex (Some "time") tz vals ->
  measurement_columns df -> vals <> [] ->
  load_cache lat lon fs
  = Ok (mkFrame (DatetimeIndex (Some "time") (Some UTC) vals) (columns df)).
Proof.
  intros Hfs Hix [_ Hcols] Hne.
  destruct df as [ix cols]. simpl in Hix. subst ix. simpl in Hcols.
  unfold nrows in Hcols. simpl in Hcols.
  unfold load_cache. rewrite Hfs.
  set (n := List.length vals).
  set (ixf := map (field_of_ts (is_aware tz)) vals).
  set (colfs := map (fun kv : string * Column => fields_of_column (snd kv)) cols).
  set (rows := map (fun i => nth i ixf FEmpty :: map (fun c => nth i c FEmpty) colfs)
                   (seq 0 n)).
  assert (Hcsv : to_csv (mkFrame (DatetimeIndex (Some "time") tz vals) cols)
                 = mkCsv ("time" :: map fst cols) rows) by reflexivity.
  rewrite Hcsv.
  assert (Hlabels : fix_labels ("time" :: map fst cols) = "time" :: map fst cols).
  { apply fix_labels_fixed. constructor; [discriminate|].
    rewrite Forall_map. eapply Forall_impl; [|exact Hcols].
    intros kv (vs & _ & _ & H & _). exact H. }
  assert (Hrows : rows <> []).
  { unfold rows, n. destruct vals; [congruence|discriminate]. }
  rewrite (read_csv_rows _ "time" 0); simpl header; simpl records;
    [ | now rewrite Hlabels | exact Hrows ].
  rewrite Hlabels, data_labels_first.
  assert (Hic : map (fun r => nth 0 r FEmpty) rows = ixf).
  { unfold rows. rewrite map_map. simpl.
    replace n with (List.length ixf) by (unfold ixf; apply length_map).
    symmetry. apply list_as_map_nth. }
  rewrite Hic.
  assert (Hdc : map (fun jl : nat * string =>
                       (snd jl, infer_column (map (fun r => nth (fst jl) r FEmpty) rows)))
                    (combine (seq 1 (List.length (map fst cols))) (map fst cols))
                = cols).
  { rewrite (map_combine_seq _ "" 1 (map fst cols)).
    rewrite length_map.
    transitivity (map (fun p => nth p cols ("", Float64 [])) (seq 0 (List.length cols)));
      [|symmetry; apply list_as_map_nth].
    apply map_ext_in. intros p Hp. apply in_seq in Hp.
    simpl fst. simpl snd.
    assert (Hin : In (nth p cols ("", Float64 [])) cols) by (apply nth_In; lia).
    rewrite Forall_forall in Hcols.
    destruct (Hcols _ Hin) as (vs & Hvs & Hlen & _).
    destruct (nth p cols ("", Float64 [])) as [nm c] eqn:Ep. simpl in Hvs. subst c.
    f_equal.
    - change "" with (fst ("", Float64 [])). rewrite map_nth. now rewrite Ep.
    - unfold rows. rewrite map_map. simpl.
      transitivity (infer_column (map field_of_num vs)); [|apply infer_numeric_column].
      f_equal.
      rewrite (list_as_map_nth FEmpty (map field_of_num vs)).
      rewrite !length_map, Hlen. fold n.
      apply map_ext. intro i.
      rewrite (nth_map_nth colfs i p FEmpty).
      unfold colfs.
      change (@nil field) with (fields_of_column (snd ("", Float64 []))).
      rewrite (map_nth (fun kv : string * Column => fields_of_column (snd kv))).
      now rewrite Ep. }
  rewrite Hdc. simpl bind.
  destruct (index_read_back (is_aware tz) vals) as [[H1 H2]|[H1 H2]];
    fold ixf in H1, H2; rewrite H1; simpl.
  - now rewrite H2.
  - now rewrite H2.
Qed.

Lemma load_saved_series df lat lon fs tz vals :
  index df = DatetimeIndex (Some "time") tz vals ->
  measurement_columns df -> vals <> [] ->
  load_cache lat lon (save_cache df lat lon fs)
  = Ok (mkFrame (DatetimeIndex (Some "time") (Some UTC) vals) (columns df)).
Proof.
  apply load_stored_series. unfold save_cache. apply fs_write_same.
Qed.

(** A series with instants and no measurement column is stored with its
    dates and loads, although [empty] holds of it. *)
Lemma load_saved_index_only lat lon fs tz vals :
  vals <> [] ->
  load_cache lat lon
    (save_cache (mkFrame (DatetimeIndex (Some "time") tz vals) []) lat lon fs)
  = Ok (mkFrame (DatetimeIndex (Some "time") (Some UTC) vals) [])
  /\ empty (mkFrame (DatetimeIndex (Some "time") tz vals) []) = true.
Proof.
  intro Hne. split.
  - apply (load_saved_series (mkFrame (DatetimeIndex (Some "time") tz vals) [])
                              lat lon fs tz vals); auto.
    split; constructor.
  - unfold empty. simpl. apply orb_true_r.
Qed.

(** A cache file that holds a non-empty normalised series loads as that
    series. *)
Lemma load_cached_series lat lon fs S :
  fs (cache_path lat lon) = Some (to_csv S) ->
  normalized_utc S -> empty S = false ->
  load_cache lat lon fs = Ok S.
Proof.
  intros Hf [[vals Hix] Hcols] He.
  assert (Hne : vals <> []).
  { intros ->. unfold empty, nrows in He. rewrite Hix in He. discriminate. }
  rewrite (load_stored_series S lat lon fs (Some UTC) vals Hf Hix Hcols Hne).
  destruct S; simpl in *; now subst.
Qed.

(** A stored series with no rows cannot be loaded. *)
Lemma load_saved_without_rows df lat lon fs :
  nrows df = 0 -> raises (load_cache lat lon (save_cache df lat lon fs)).
Proof.
  intro Hn. unfold load_cache, save_cache. rewrite fs_write_same.
  assert (Hr : records (to_csv df) = []) by (unfold to_csv; now rewrite Hn).
  unfold read_csv. rewrite Hr.
  destruct (position "time" (fix_labels (header (to_csv df)))); unfold bind;
    now eexists.
Qed.



(** C9.  A series with no rows that is saved cannot be loaded: [load_cache]
    raises.  It returns the empty frame when there is no file, and it
    returns from a saved series only if that series had a row. *)
Theorem load_after_saving_empty df lat lon fs :
  (nrows df = 0 -> raises (load_cache lat lon (save_cache df lat lon fs)))
  /\ (fs (cache_path lat lon) = None -> load_cache lat lon fs = Ok empty_frame)
  /\ (forall out, load_cache lat lon (save_cache df lat lon fs) = Ok out ->
                  0 < nrows df).
Proof.
  split; [apply load_saved_without_rows|]. split.
  - intro H. unfold load_cache. now rewrite H.
  - intros out H. destruct (nrows df) eqn:E; [|lia].
    destruct (load_saved_without_rows df lat lon fs E) as [e He]. congruence.
Qed.

End CacheFacts.

Lemma example_frame_normalized : normalized_utc example_frame /\ empty example_frame = false.
Proof.
  split; [|reflexivity]. split.
  - now exists [Some 1756944000000000000%Z; Some 1756947600000000000%Z; None].
  - split.
    + repeat constructor. simpl. tauto.
    + repeat constructor. exists [Val 68; NaN; Val 70].
      repeat split; discriminate.
Qed.


(** The frame that the normaliser returns for an absent hourly block, once
    saved, makes [load_cache] raise [ValueError]. *)
Lemma load_after_saving_empty_witness :
  let lat := fst grand_junction in
  let lon := snd grand_junction in
  raises (load_cache lat lon (save_cache empty_frame lat lon no_files))
  /\ exn_class_of (load_cache lat lon (save_cache empty_frame lat lon no_files))
     = Some ValueError.
Proof.
  intros lat lon. split.
  - apply (proj1 (load_after_saving_empty empty_frame lat lon no_files)). reflexivity.
  - vm_compute. reflexivity.
Defined.

(** ** The display sanitiser *)

Lemma promote_threshold_reached n k :
  n <> 0 -> 4 * n <= 5 * k -> (promote_threshold n <=? k)%nat = true.
Proof.
  intros Hn H. apply Nat.leb_le. unfold promote_threshold.
  apply Nat.max_lub; [lia|].
  apply Nat.Div0.div_le_upper_bound. lia.
Qed.

Section SanitizerClaims.
Context {P : Pandas}.

Lemma reset_index_ok df :
  has_key (reset_label df) (columns df) = false ->
  reset_index df
  = Ok (mkFrame (RangeIndex (nrows df))
                ((reset_label df, column_of_index (index df)) :: columns df)).
Proof. intro H. unfold reset_index. now rewrite H. Qed.

Lemma reset_index_collision df :
  has_key (reset_label df) (columns df) = true -> raises (reset_index df).
Proof. intro H. unfold reset_index. rewrite H. now eexists. Qed.

Lemma sanitize_aware zone vals naive :
  dt_tz_localize_none zone vals = Ok naive ->
  sanitize_column (Datetime64 (Some zone) vals) = Datetime64 None naive.
Proof. intro H. unfold sanitize_column. simpl. now rewrite H. Qed.

Lemma sanitize_aware_failing zone vals e :
  dt_tz_localize_none zone vals = Raise e ->
  sanitize_column (Datetime64 (Some zone) vals)
  = Object (map (fun t => CStr (timestamp_str (Some zone) t)) vals).
Proof. intro H. unfold sanitize_column. simpl. now rewrite H. Qed.

Lemma sanitize_text_dates cells parsed :
  cells <> [] ->
  to_datetime_coerce cells = Ok (Datetime64 None parsed) ->
  List.length parsed = List.length cells ->
  4 * List.length cells <= 5 * List.length (filter notna_ts parsed) ->
  sanitize_column (Object cells) = Datetime64 None parsed.
Proof.
  intros Hne Hc Hlen H. unfold sanitize_column, promote_text. rewrite Hc.
  simpl col_len. simpl notna_count. rewrite promote_threshold_reached.
  - reflexivity.
  - rewrite Hlen. destruct cells; [congruence|discriminate].
  - now rewrite Hlen.
Qed.

Lemma sanitize_text_failing cells e :
  to_datetime_coerce cells = Raise e -> sanitize_column (Object cells) = Object cells.
Proof. intro H. unfold sanitize_column, promote_text. now rewrite H. Qed.

Lemma sanitize_numeric vs : sanitize_column (Float64 vs) = Float64 vs.
Proof. reflexivity. Qed.

(** C8 (as amended).  [arrow_safe_df] raises only when [reset_index] cannot
    insert the index under its label because a column has that label.
    Otherwise it returns, an empty table as it is and any other one with the
    index as leading column and every column sanitised, whatever the date
    coercions do: a zone-aware date column loses its zone, or becomes text
    when removing the zone raises; a text column of which at least 80% of
    the values parse as dates becomes a date column, and stays as it is
    when parsing raises. *)
Theorem arrow_safe_df_sanitizes df :
  empty df = true \/ has_key (reset_label df) (columns df) = false ->
  (exists out,
      arrow_safe_df df = Ok out
      /\ (empty df = true -> out = df)
      /\ (empty df = false ->
          index out = RangeIndex (nrows df)
          /\ columns out
             = map (fun kv => (fst kv, sanitize_column (snd kv)))
                   ((reset_label df, column_of_index (index df)) :: columns df)))
  /\ (forall zone vals naive,
        dt_tz_localize_none zone vals = Ok naive ->
        sanitize_column (Datetime64 (Some zone) vals) = Datetime64 None naive)
  /\ (forall zone vals e,
        dt_tz_localize_none zone vals = Raise e ->
        is_object_dtype (sanitize_column (Datetime64 (Some zone) vals)) = true)
  /\ (forall cells parsed,
        cells <> [] ->
        to_datetime_coerce cells = Ok (Datetime64 None parsed) ->
        List.length parsed = List.length cells ->
        4 * List.length cells <= 5 * List.length (filter notna_ts parsed) ->
        sanitize_column (Object cells) = Datetime64 None parsed)
  /\ (forall cells e,
        to_datetime_coerce cells = Raise e ->
        sanitize_column (Object cells) = Object cells).
Proof.
  intro H. split; [|split; [|split; [|split]]].
  - unfold arrow_safe_df. destruct (empty df) eqn:He.
    + exists df. split; [reflexivity|]. split; [reflexivity|]. discriminate.
    + destruct H as [H|H]; [discriminate|].
      rewrite (reset_index_ok df H). simpl.
      eexists. split; [reflexivity|]. split; [discriminate|].
      intros _. split; reflexivity.
  - apply sanitize_aware.
  - intros zone vals e He. now rewrite (sanitize_aware_failing zone vals e He).
  - apply sanitize_text_dates.
  - apply sanitize_text_failing.
Qed.

End SanitizerClaims.

(** C8, counterexample.  The index of [colliding_table] is named ["time"]
    and so is its column: [arrow_safe_df] raises [ValueError]. *)
Lemma arrow_safe_df_raises_on_collision :
  arrow_safe_df colliding_table
  = Raise (PyExc ValueError "cannot insert time, already exists").
Proof. reflexivity. Qed.

(** On [example_table] the UTC index becomes a leading date column without
    zone and the text column, 80% dates, a date column. *)
Lemma arrow_safe_df_example :
  arrow_safe_df example_table
  = Ok (mkFrame (RangeIndex 5)
          [ ("time", Datetime64 None
                       [Some 0%Z; Some hour_ns; Some (2 * hour_ns)%Z;
                        Some (3 * hour_ns)%Z; Some (4 * hour_ns)%Z]);
            ("seen", Datetime64 None
                       [Some 1756944000000000000%Z; Some 1756947600000000000%Z; None;
                        Some 1756954800000000000%Z; Some 1756958400000000000%Z]) ]).
Proof. vm_compute. reflexivity. Qed.

(** Where removing the zone raises, the column is degraded to text. *)
Lemma arrow_safe_df_degrades_to_text :
  arrow_safe_df unknown_zone_table
  = Ok (mkFrame (RangeIndex 1)
          [ ("index", Float64 [Val 0]);
            ("seen", Object [CStr (timestamp_str (Some "Mars/Olympus") (Some 0%Z))]) ]).
Proof. vm_compute. reflexivity. Qed.

Lemma arrow_safe_df_sanitizes_witness :
  exists out,
    arrow_safe_df example_table = Ok out
    /\ (empty example_table = true -> out = example_table)
    /\ (empty example_table = false ->
        index out = RangeIndex (nrows example_table)
        /\ columns out
           = map (fun kv => (fst kv, sanitize_column (snd kv)))
                 ((reset_label example_table, column_of_index (index example_table))
                    :: columns example_table)).
Proof.
  apply (proj1 (arrow_safe_df_sanitizes example_table (or_intror eq_refl))).
Defined.

(** ** The fetch-and-cache block *)

Section DriverClaims.
Context {P : Pandas}.

Lemma fetch_failure net lat lon days fs e :
  net (open_meteo_url lat lon (days * 24)) = Raise e ->
  fetch_and_save net lat lon days fs = Raise e.
Proof. intro H. unfold fetch_and_save, fetch_hourly_json. now rewrite H. Qed.

(** [fetch.py] falls back to the cached series, reports the failure and
    leaves the cache alone; without a cache file it stops the run. *)
Lemma fetch_py_driver_fallback net lat lon days fs e :
  net (open_meteo_url lat lon (days * 24)) = Raise e ->
  (forall S, fs (cache_path lat lon) = Some (to_csv S) ->
             normalized_utc S -> empty S = false ->
             fetch_py_driver net lat lon days fs
             = Continue S fs [StError ("Fetch error: " ++ exn_str e)%string])
  /\ (fs (cache_path lat lon) = None ->
      fetch_py_driver net lat lon days fs
      = Stopped fs [StError ("Fetch error: " ++ exn_str e)%string]).
Proof.
  intro Hnet. split.
  - intros S Hf Hn He. unfold fetch_py_driver.
    rewrite (fetch_failure net lat lon days fs e Hnet).
    rewrite (load_cached_series lat lon fs S Hf Hn He). now rewrite He.
  - intro Hf. unfold fetch_py_driver.
    rewrite (fetch_failure net lat lon days fs e Hnet).
    unfold load_cache. now rewrite Hf.
Qed.

(** In [app_streamlit.py] the handler never gets past its test: whenever the
    body of [try] raises and the cache can be loaded, the run ends in
    [TypeError]. *)
Lemma app_streamlit_driver_handler net lat lon days fs e df :
  fetch_and_save net lat lon days fs = Raise e ->
  load_cache lat lon fs = Ok df ->
  app_streamlit_driver net lat lon days fs
  = Crashed not_callable fs [StError ("Fetch error: " ++ exn_str e)%string].
Proof.
  intros Hf Hl. unfold app_streamlit_driver. now rewrite Hf, Hl.
Qed.

(** C1.  When the fetch raises and the cache holds a non-empty normalised
    series, the driver of [fetch.py] goes on with that series, after one
    fetch-error message and without a write; the driver of
    [app_streamlit.py] shows the message and then raises [TypeError] from
    its emptiness test.  Without a cache file [fetch.py] stops the run and
    [app_streamlit.py] raises the same [TypeError]. *)
Theorem app_streamlit_driver_fallback_crashes net lat lon days fs e :
  net (open_meteo_url lat lon (days * 24)) = Raise e ->
  (forall S, fs (cache_path lat lon) = Some (to_csv S) ->
             normalized_utc S -> empty S = false ->
             fetch_py_driver net lat lon days fs
             = Continue S fs [StError ("Fetch error: " ++ exn_str e)%string]
             /\ app_streamlit_driver net lat lon days fs
                = Crashed not_callable fs [StError ("Fetch error: " ++ exn_str e)%string])
  /\ (fs (cache_path lat lon) = None ->
      fetch_py_driver net lat lon days fs
      = Stopped fs [StError ("Fetch error: " ++ exn_str e)%string]
      /\ app_streamlit_driver net lat lon days fs
         = Crashed not_callable fs [StError ("Fetch error: " ++ exn_str e)%string]).
Proof.
  intro Hnet.
  destruct (fetch_py_driver_fallback net lat lon days fs e Hnet) as [H1 H2].
  pose proof (fetch_failure net lat lon days fs e Hnet) as Hf.
  split.
  - intros S Hs Hn He. split; [now apply H1|].
    apply (app_streamlit_driver_handler net lat lon days fs e S Hf).
    now apply load_cached_series.
  - intro Hs. split; [now apply H2|].
    apply (app_streamlit_driver_handler net lat lon days fs e empty_frame Hf).
    unfold load_cache. now rewrite Hs.
Qed.

End DriverClaims.

Lemma app_streamlit_driver_fallback_crashes_witness :
  let lat := fst grand_junction in
  let lon := snd grand_junction in
  let fs := save_cache example_frame lat lon no_files in
  fetch_py_driver unreachable lat lon 7 fs
  = Continue example_frame fs [StError "Fetch error: connection timed out"]
  /\ app_streamlit_driver unreachable lat lon 7 fs
     = Crashed not_callable fs [StError "Fetch error: connection timed out"].
Proof.
  intros lat lon fs.
  apply (proj1 (app_streamlit_driver_fallback_crashes unreachable lat lon 7 fs
                  (PyExc RequestException "connection timed out") eq_refl)
               example_frame).
  - unfold fs, save_cache. apply fs_write_same.
  - apply example_frame_normalized.
  - reflexivity.
Defined.

(** ** More on the normaliser *)

Lemma key_lt_le a b : key_lt a b = true -> key_le a b = true.
Proof.
  destruct a as [x|], b as [y|]; simpl; auto.
  intro H. apply Z.ltb_lt in H. apply Z.leb_le. lia.
Qed.

Lemma index_ascending_sorted vals : index_ascending vals -> index_sorted vals.
Proof.
  unfold index_ascending, index_sorted. induction 1 as [|a l _ IH Ha]; constructor.
  - exact IH.
  - eapply Forall_impl; [|exact Ha]. intros b. apply key_lt_le.
Qed.

Section NormalizerExtras.
Context {P : Pandas}.

(** X1.  Whatever the payload, a result of [hourly_to_frame] holds no text
    column and no date column, numeric columns only, and each of them is as
    long as the index. *)
Theorem hourly_to_frame_numeric_columns js df :
  hourly_to_frame (ArgDict js) = Ok df ->
  Forall (fun kv => is_object_dtype (snd kv) = false
                    /\ is_datetime64_any_dtype (snd kv) = false
                    /\ col_len (snd kv) = nrows df)
         (columns df).
Proof.
  intro H.
  destruct (hourly_to_frame_cases js df H)
    as [[-> _] | [(data & tcol & n & _ & _ & _ & _ & ->)
                 | (data & n & _ & _ & Hrect & _ & ->)]].
  - constructor.
  - unfold time_frame, nrows. simpl. rewrite Forall_map.
    apply Forall_forall. intros kv _. simpl.
    split; [reflexivity|]. split; [reflexivity|]. now rewrite !take_length.
  - unfold plain_frame, nrows. simpl. rewrite Forall_map.
    eapply Forall_impl; [|exact Hrect]. intros kv Hkv. simpl.
    split; [reflexivity|]. split; [reflexivity|]. now rewrite length_map.
Qed.

(** X2.  A block in which some array is not as long as the first one makes
    [hourly_to_frame] raise [ValueError]. *)
Theorem hourly_to_frame_ragged js k0 c0 rest :
  hourly js = Some ((k0, c0) :: rest) ->
  Exists (fun kv => List.length (snd kv) <> List.length c0) rest ->
  hourly_to_frame (ArgDict js)
  = Raise (PyExc ValueError "All arrays must be of the same length").
Proof.
  intros Hh Hex.
  rewrite (hourly_to_frame_block js _ Hh) by discriminate.
  unfold pd_DataFrame.
  replace (forallb _ ((k0, c0) :: rest)) with false; [reflexivity|].
  symmetry. apply not_true_is_false. intro F.
  rewrite forallb_forall in F. apply Exists_exists in Hex.
  destruct Hex as (kv & Hin & Hne). apply Hne.
  apply Nat.eqb_eq. apply F. now right.
Qed.

(** X3.  When the instants of the payload already ascend strictly, with
    the unparsable timestamps last, the normaliser keeps the rows in
    payload order. *)
Theorem hourly_to_frame_keeps_sorted_order js data tcol n :
  hourly js = Some data -> data <> [] -> rectangular n data ->
  lookup "time" data = Some tcol ->
  index_ascending (map to_datetime_utc_cell tcol) ->
  hourly_to_frame (ArgDict js)
  = Ok (mkFrame (DatetimeIndex (Some "time") (Some UTC) (map to_datetime_utc_cell tcol))
                (map (fun kv => (fst kv, Float64 (map to_numeric_cell (snd kv))))
                     (drop_col "time" data))).
Proof.
  intros Hh Hne Hrect Ht Hs. apply index_ascending_sorted in Hs.
  rewrite (hourly_to_frame_time js data tcol n Hh Hne Hrect Ht).
  unfold time_frame. rewrite (argsort_sorted _ Hs), take_seq.
  f_equal. f_equal. apply map_ext_in. intros kv Hin. f_equal. f_equal.
  apply filter_In in Hin. destruct Hin as [Hin _].
  unfold rectangular in Hrect. rewrite Forall_forall in Hrect.
  rewrite length_map, (lookup_length "time" data tcol n) by
    (try exact Ht; apply Forall_forall; exact Hrect).
  rewrite <- (Hrect kv Hin), <- (length_map to_numeric_cell (snd kv)).
  apply take_seq.
Qed.

(** X4.  What the normaliser returns for a block of distinct, named
    measurements with a ["time"] array and at least one row can be saved
    and loaded back unchanged. *)
Theorem normalized_series_round_trip js data tcol n lat lon fs :
  hourly js = Some data -> rectangular n data ->
  lookup "time" data = Some tcol ->
  NoDup (map fst data) -> ~ In "" (map fst data) -> n <> 0 ->
  exists df,
    hourly_to_frame (ArgDict js) = Ok df
    /\ nrows df = n
    /\ load_cache lat lon (save_cache df lat lon fs) = Ok df.
Proof.
  intros Hh Hrect Ht Hnd Hnamed Hn.
  assert (Hne : data <> []) by (intros ->; discriminate).
  exists (time_frame data tcol).
  split; [exact (hourly_to_frame_time js data tcol n Hh Hne Hrect Ht)|].
  assert (Hrows : nrows (time_frame data tcol) = n).
  { unfold nrows, time_frame. simpl.
    rewrite take_length, argsort_length, length_map.
    exact (lookup_length "time" data tcol n Hrect Ht). }
  split; [exact Hrows|].
  destruct (time_frame_normalized data tcol Hnd Hnamed) as [_ Hcols].
  rewrite (load_saved_series (time_frame data tcol) lat lon fs (Some UTC)
             (take None (argsort (map to_datetime_utc_cell tcol))
                   (map to_datetime_utc_cell tcol))); auto.
  intro E. unfold nrows, time_frame in Hrows. simpl in Hrows.
  rewrite E in Hrows. simpl in Hrows. congruence.
Qed.

End NormalizerExtras.

Lemma hourly_to_frame_keeps_sorted_order_witness :
  hourly_to_frame (ArgDict sorted_payload)
  = Ok (mkFrame (DatetimeIndex (Some "time") (Some UTC)
                   (map to_datetime_utc_cell
                        [CStr "2025-09-04T00:00"; CStr "2025-09-04T01:00"; CStr "soon"]))
                (map (fun kv => (fst kv, Float64 (map to_numeric_cell (snd kv))))
                     (drop_col "time"
                        [ ("time", [CStr "2025-09-04T00:00"; CStr "2025-09-04T01:00";
                                    CStr "soon"]);
                          ("temperature_2m", [CNum 68; CStr "n/a"; CNum 70]) ]))).
Proof.
  apply (hourly_to_frame_keeps_sorted_order sorted_payload _ _ 3).
  - reflexivity.
  - discriminate.
  - repeat constructor.
  - reflexivity.
  - repeat constructor.
Defined.

Lemma hourly_to_frame_ragged_witness :
  hourly_to_frame
    (ArgDict (mkPayload (Some [ ("time", [CStr "2025-09-04T00:00"]);
                                ("temperature_2m", []) ]) None))
  = Raise (PyExc ValueError "All arrays must be of the same length").
Proof.
  apply (hourly_to_frame_ragged _ "time" [CStr "2025-09-04T00:00"]
                                [("temperature_2m", [])]).
  - reflexivity.
  - constructor. simpl. discriminate.
Defined.

Lemma hourly_to_frame_numeric_columns_witness :
  Forall (fun kv => is_object_dtype (snd kv) = false
                    /\ is_datetime64_any_dtype (snd kv) = false
                    /\ col_len (snd kv) = nrows example_frame)
         (columns example_frame).
Proof.
  apply (hourly_to_frame_numeric_columns example_payload example_frame).
  vm_compute. reflexivity.
Defined.

Lemma normalized_series_round_trip_witness :
  exists df,
    hourly_to_frame (ArgDict example_payload) = Ok df
    /\ nrows df = 3
    /\ load_cache (fst grand_junction) (snd grand_junction)
         (save_cache df (fst grand_junction) (snd grand_junction) no_files) = Ok df.
Proof.
  apply (normalized_series_round_trip example_payload
           [ ("time", [CStr "not a date"; CStr "2025-09-04T01:00"; CStr "2025-09-04T00:00"]);
             ("temperature_2m", [CNum 70; CStr "n/a"; CNum 68]) ]
           [CStr "not a date"; CStr "2025-09-04T01:00"; CStr "2025-09-04T00:00"] 3
           (fst grand_junction) (snd grand_junction) no_files).
  - reflexivity.
  - repeat constructor.
  - reflexivity.
  - repeat constructor; simpl; intuition discriminate.
  - simpl. intuition discriminate.
  - discriminate.
Defined.

(** ** The time localiser *)

Section LocalizerExtras.
Context {P : Pandas}.

(** X5.  On a non-empty table [to_local_naive] keeps the columns and the
    number of rows and returns a naive index, with the missing instants
    where they were; applied to its own result it raises [TypeError]. *)
Theorem to_local_naive_once df df' :
  empty df = false -> to_local_naive df = Ok df' ->
  columns df' = columns df
  /\ nrows df' = nrows df
  /\ (exists name vals,
        index df' = DatetimeIndex name None vals
        /\ map notna_ts vals = map notna_ts (index_stamps (index df)))
  /\ exn_class_of (to_local_naive df') = Some TypeError.
Proof.
  intros He H. unfold to_local_naive in H. rewrite He in H.
  destruct (index df) as [n|name [z|] vals|name vals] eqn:Hix; try discriminate.
  simpl in H. inversion H; subst df'. clear H. simpl.
  split; [reflexivity|]. split.
  - unfold nrows. simpl. now rewrite Hix, length_map.
  - split.
    + eexists _, _. split; [reflexivity|].
      rewrite map_map. apply map_ext. now intros [t|].
    + unfold to_local_naive.
      replace (empty _) with false; [reflexivity|].
      symmetry. unfold empty, nrows in *. simpl. rewrite Hix in He.
      now rewrite length_map.
Qed.

(** X6.  A payload without a ["time"] array normalises to a table over
    row numbers; when it has rows, [to_local_naive] raises
    [AttributeError] on it, because such an index has no zone to convert. *)
Theorem to_local_naive_needs_time_index js data n :
  hourly js = Some data -> data <> [] -> rectangular n data -> n <> 0 ->
  lookup "time" data = None ->
  exists df,
    hourly_to_frame (ArgDict js) = Ok df
    /\ index df = RangeIndex n
    /\ exn_class_of (to_local_naive df) = Some AttributeError.
Proof.
  intros Hh Hne Hrect Hn Ht. exists (plain_frame n data).
  split; [now apply hourly_to_frame_plain|]. split; [reflexivity|].
  unfold to_local_naive.
  replace (empty (plain_frame n data)) with false; [reflexivity|].
  symmetry. unfold empty, nrows, plain_frame. simpl. rewrite length_map.
  apply orb_false_iff. split; apply Nat.eqb_neq; [exact Hn|].
  destruct data; simpl; congruence.
Qed.

End LocalizerExtras.

Lemma to_local_naive_once_witness :
  columns example_local_frame = columns example_frame
  /\ nrows example_local_frame = nrows example_frame
  /\ (exists name vals,
        index example_local_frame = DatetimeIndex name None vals
        /\ map notna_ts vals = map notna_ts (index_stamps (index example_frame)))
  /\ exn_class_of (to_local_naive example_local_frame) = Some TypeError.
Proof.
  apply (to_local_naive_once example_frame example_local_frame); reflexivity.
Defined.

Lemma to_local_naive_needs_time_index_witness :
  exists df,
    hourly_to_frame (ArgDict example_plain_payload) = Ok df
    /\ index df = RangeIndex 3
    /\ exn_class_of (to_local_naive df) = Some AttributeError.
Proof.
  apply (to_local_naive_needs_time_index example_plain_payload
           [("temperature_2m", [CNum 70; CStr "n/a"; CNum 68])] 3).
  - reflexivity.
  - discriminate.
  - repeat constructor.
  - discriminate.
  - reflexivity.
Defined.

(** ** The daily table *)

Lemma fold_min_le (l : list Z) (a : Z) :
  (fold_left Z.min l a <= a)%Z /\ Forall (fun x => fold_left Z.min l a <= x)%Z l.
Proof.
  revert a. induction l as [|x l IH]; intro a; simpl; [split; [lia|constructor]|].
  destruct (IH (Z.min a x)) as [H1 H2]. split; [lia|].
  constructor; [lia|exact H2].
Qed.

Lemma fold_max_ge (l : list Z) (a : Z) :
  (a <= fold_left Z.max l a)%Z /\ Forall (fun x => x <= fold_left Z.max l a)%Z l.
Proof.
  revert a. induction l as [|x l IH]; intro a; simpl; [split; [lia|constructor]|].
  destruct (IH (Z.max a x)) as [H1 H2]. split; [lia|].
  constructor; [lia|exact H2].
Qed.

(** For an index that holds an instant, the bins are the consecutive days
    from the first to the last day that occurs. *)
Lemma day_bins_cover (vals : list Timestamp) z0 :
  In (Some z0) vals ->
  exists lo len,
    day_bins vals = Ok (map (fun k => (lo + Z.of_nat k)%Z) (seq 0 len))
    /\ Forall (fun d => lo <= d < lo + Z.of_nat len)%Z (days_present vals).
Proof.
  intro Hz.
  assert (Hd0 : In (day_of z0) (days_present vals)).
  { unfold days_present. apply in_flat_map. exists (Some z0). simpl. auto. }
  unfold day_bins. destruct vals as [|t0 rest] eqn:Ev; [destruct Hz|].
  rewrite <- Ev in *. clear Ev Hz t0 rest.
  destruct (days_present vals) as [|d ds] eqn:E; [destruct Hd0|].
  set (lo := fold_left Z.min ds d). set (hi := fold_left Z.max ds d).
  destruct (fold_min_le ds d) as [Hlo1 Hlo2].
  destruct (fold_max_ge ds d) as [Hhi1 Hhi2].
  fold lo in Hlo1, Hlo2. fold hi in Hhi1, Hhi2.
  exists lo, (Z.to_nat (hi - lo + 1)). split; [reflexivity|].
  constructor; [lia|].
  rewrite Forall_forall in *. intros x Hx.
  specialize (Hlo2 x Hx). specialize (Hhi2 x Hx). lia.
Qed.

(** An index with entries that are all missing has no bins: the range of
    days cannot be built. *)
Lemma day_bins_all_missing (vals : list Timestamp) :
  vals <> [] -> Forall (fun t => t = None) vals ->
  day_bins vals = Raise (PyExc ValueError "Neither `start` nor `end` can be NaT").
Proof.
  intros Hne Hall. unfold day_bins. destruct vals as [|t0 rest] eqn:Ev; [congruence|].
  rewrite <- Ev in *. clear Ev Hne t0 rest.
  replace (days_present vals) with (@nil Z); [reflexivity|].
  symmetry. unfold days_present.
  induction Hall as [|t l Ht _ IH]; [reflexivity|]. subst t. exact IH.
Qed.

Section AggregatorExtras.
Context {P : Pandas}.

Lemma wall_clock_instant tz vals z0 :
  In (Some z0) vals -> exists z, In (Some z) (wall_clock tz vals).
Proof.
  intro H. destruct tz as [zone|]; simpl; [|now exists z0].
  exists (z0 + utc_offset zone z0)%Z. apply in_map_iff. now exists (Some z0).
Qed.

Lemma wall_clock_all_missing tz vals :
  Forall (fun t => t = None) vals -> Forall (fun t => t = None) (wall_clock tz vals).
Proof.
  intro H. destruct tz as [zone|]; simpl; [|exact H].
  rewrite Forall_map. eapply Forall_impl; [|exact H]. now intros t ->.
Qed.

Lemma wall_clock_length tz vals :
  List.length (wall_clock tz vals) = List.length vals.
Proof. destruct tz; simpl; [apply length_map|reflexivity]. Qed.

(** The daily table of a table that holds the three measurements. *)
Lemma daily_summary_ok df name tz vals temps precs winds bins :
  index df = DatetimeIndex name tz vals -> empty df = false ->
  lookup "temperature_2m" (columns df) = Some (Float64 temps) ->
  lookup "precipitation" (columns df) = Some (Float64 precs) ->
  lookup "wind_speed_10m" (columns df) = Some (Float64 winds) ->
  day_bins (wall_clock tz vals) = Ok bins ->
  let wall := wall_clock tz vals in
  let col := fun s vs => Float64 (map (fun d => apply_stat s (rows_of_day d wall vs)) bins) in
  daily_summary df
  = Ok (mkFrame (DatetimeIndex name tz (map (day_label tz) bins))
                [ ("temperature_2m_mean", col Mean temps);
                  ("temperature_2m_min", col Min temps);
                  ("temperature_2m_max", col Max temps);
                  ("precipitation_sum", col Sum precs);
                  ("wind_speed_10m_mean", col Mean winds) ]).
Proof.
  intros Hix He Ht Hp Hw Hb wall col.
  unfold daily_summary. rewrite He. unfold resample_D_agg. rewrite Hix.
  cbv zeta. rewrite Hb. cbn [bind].
  assert (Hk : forallb (fun e : string * list stat => has_key (fst e) (columns df)) agg_spec
               = true).
  { unfold agg_spec, has_key. cbn [forallb fst]. now rewrite Ht, Hp, Hw. }
  rewrite Hk. fold wall.
  unfold agg_spec. cbn [collect]. unfold agg_column. cbn [fst snd].
  rewrite Ht, Hp, Hw. reflexivity.
Qed.

(** Without bins there is no daily table. *)
Lemma daily_summary_no_bins df name tz vals e :
  index df = DatetimeIndex name tz vals -> empty df = false ->
  day_bins (wall_clock tz vals) = Raise e ->
  daily_summary df = Raise e.
Proof.
  intros Hix He Hb. unfold daily_summary, resample_D_agg.
  rewrite He, Hix. cbv zeta. now rewrite Hb.
Qed.

(** X7.  For a table whose index holds an instant, the daily table has one
    row for every calendar day from the first to the last day of the index,
    days without readings included, and its five columns are as long as its
    index.  For a table with rows whose instants are all missing there is
    no daily table: [daily_summary] raises. *)
Theorem daily_summary_one_row_per_day df name tz vals temps precs winds :
  index df = DatetimeIndex name tz vals -> empty df = false ->
  lookup "temperature_2m" (columns df) = Some (Float64 temps) ->
  lookup "precipitation" (columns df) = Some (Float64 precs) ->
  lookup "wind_speed_10m" (columns df) = Some (Float64 winds) ->
  (forall z0, In (Some z0) vals ->
     exists out first len,
       daily_summary df = Ok out
       /\ index out
          = DatetimeIndex name tz
              (map (fun k => day_label tz (first + Z.of_nat k)%Z) (seq 0 len))
       /\ nrows out = len
       /\ Forall (fun t => match t with
                           | Some z => (first <= day_of z < first + Z.of_nat len)%Z
                           | None => True
                           end) (wall_clock tz vals)
       /\ Forall (fun kv => col_len (snd kv) = len) (columns out))
  /\ (Forall (fun t => t = None) vals -> raises (daily_summary df)).
Proof.
  intros Hix He Ht Hp Hw. split.
  - intros z0 Hz0.
    destruct (wall_clock_instant tz vals z0 Hz0) as [z1 Hz1].
    destruct (day_bins_cover (wall_clock tz vals) z1 Hz1) as (lo & len & Hb & Hin).
    pose proof (daily_summary_ok df name tz vals temps precs winds _ Hix He Ht Hp Hw Hb)
      as H.
    cbv zeta in H.
    eexists _, lo, len. split; [exact H|]. simpl. split.
    + now rewrite map_map.
    + split; [unfold nrows; simpl; now rewrite !length_map, length_seq|]. split.
      * apply Forall_forall. intros [z|] Hz; [|exact I].
        rewrite Forall_forall in Hin. apply Hin.
        unfold days_present. apply in_flat_map. exists (Some z). simpl. auto.
      * repeat constructor; simpl; now rewrite !length_map, length_seq.
  - intro Hall.
    assert (Hne : wall_clock tz vals <> []).
    { intro E. apply (f_equal (@List.length Timestamp)) in E.
      rewrite wall_clock_length in E. unfold empty, nrows in He.
      rewrite Hix, E in He. discriminate. }
    pose proof (day_bins_all_missing _ Hne (wall_clock_all_missing tz vals Hall)) as Hb.
    rewrite (daily_summary_no_bins df name tz vals _ Hix He Hb). now eexists.
Qed.

End AggregatorExtras.

(** A day without a valid value: no mean, minimum or maximum, and the sum
    is zero. *)
Lemma apply_stat_no_valid vs :
  count_valid vs = 0 ->
  apply_stat Mean vs = NaN /\ apply_stat Min vs = NaN /\ apply_stat Max vs = NaN
  /\ apply_stat Sum vs = Val 0.
Proof.
  unfold count_valid. intro H. destruct (valid vs) eqn:E; [|discriminate].
  unfold apply_stat, mean. now rewrite E.
Qed.

Lemma valid_app a b : valid (a ++ b) = valid a ++ valid b.
Proof. unfold valid. apply flat_map_app. Qed.

(** The rows of a day on which every reading of the column is missing hold
    no valid value. *)
Lemma rows_of_day_no_valid d vals vs :
  (forall i z, nth_error vals i = Some (Some z) -> day_of z = d -> nth i vs NaN = NaN) ->
  count_valid (rows_of_day d vals vs) = 0.
Proof.
  unfold count_valid, rows_of_day. revert vs.
  induction vals as [|t vals IH]; intros vs H; [reflexivity|].
  destruct vs as [|v vs]; [reflexivity|].
  cbn [combine flat_map fst snd]. rewrite valid_app, length_app.
  rewrite IH by (intros i z Hi Hd; exact (H (S i) z Hi Hd)).
  destruct t as [z|]; [|reflexivity].
  destruct (day_of z =? d)%Z eqn:E; [|reflexivity].
  apply Z.eqb_eq in E. specialize (H 0 z eq_refl E). simpl in H. now subst v.
Qed.

Lemma day_ns_cancel a b : (a * day_ns = b * day_ns)%Z -> a = b.
Proof. unfold day_ns. lia. Qed.

Section AggregatorRows.
Context {P : Pandas}.

(** X8.  In the daily table of a table in wall-clock time, the row of a day
    on which no reading has a valid value (a day without readings, for one)
    has no mean, minimum or maximum, and a precipitation sum of zero. *)
Theorem daily_summary_day_without_values df name vals temps precs winds out k d :
  index df = DatetimeIndex name None vals -> empty df = false ->
  lookup "temperature_2m" (columns df) = Some (Float64 temps) ->
  lookup "precipitation" (columns df) = Some (Float64 precs) ->
  lookup "wind_speed_10m" (columns df) = Some (Float64 winds) ->
  daily_summary df = Ok out ->
  nth_error (index_stamps (index out)) k = Some (Some (d * day_ns)%Z) ->
  (forall i z, nth_error vals i = Some (Some z) -> day_of z = d ->
     nth i temps NaN = NaN /\ nth i precs NaN = NaN /\ nth i winds NaN = NaN) ->
  float_at out "temperature_2m_mean" k = Some NaN
  /\ float_at out "temperature_2m_min" k = Some NaN
  /\ float_at out "temperature_2m_max" k = Some NaN
  /\ float_at out "precipitation_sum" k = Some (Val 0)
  /\ float_at out "wind_speed_10m_mean" k = Some NaN.
Proof.
  intros Hix He Ht Hp Hw Hout Hk Hmiss.
  destruct (day_bins (wall_clock None vals)) as [bins|e] eqn:Hb.
  2:{ rewrite (daily_summary_no_bins df name None vals e Hix He Hb) in Hout.
      discriminate. }
  pose proof (daily_summary_ok df name None vals temps precs winds bins Hix He Ht Hp Hw Hb)
    as H.
  cbv zeta in H. rewrite H in Hout. inversion Hout; subst out. clear Hout H.
  cbn [index index_stamps wall_clock] in Hk.
  rewrite nth_error_map in Hk.
  destruct (nth_error bins k) as [d'|] eqn:Hd; [|discriminate].
  simpl in Hk. inversion Hk as [Hd']. apply day_ns_cancel in Hd'. subst d'.
  assert (T : count_valid (rows_of_day d vals temps) = 0)
    by (apply rows_of_day_no_valid; intros i z Hi Hz; now apply (Hmiss i z)).
  assert (R : count_valid (rows_of_day d vals precs) = 0)
    by (apply rows_of_day_no_valid; intros i z Hi Hz; now apply (Hmiss i z)).
  assert (W : count_valid (rows_of_day d vals winds) = 0)
    by (apply rows_of_day_no_valid; intros i z Hi Hz; now apply (Hmiss i z)).
  destruct (apply_stat_no_valid _ T) as (T1 & T2 & T3 & _).
  destruct (apply_stat_no_valid _ R) as (_ & _ & _ & R4).
  destruct (apply_stat_no_valid _ W) as (W1 & _).
  unfold float_at. cbn [columns lookup String.eqb Ascii.eqb Bool.eqb wall_clock].
  rewrite !nth_error_map, Hd. cbn [option_map].
  change (Some (apply_stat Mean (rows_of_day d vals temps)) = Some NaN
          /\ Some (apply_stat Min (rows_of_day d vals temps)) = Some NaN
          /\ Some (apply_stat Max (rows_of_day d vals temps)) = Some NaN
          /\ Some (apply_stat Sum (rows_of_day d vals precs)) = Some (Val 0)
          /\ Some (apply_stat Mean (rows_of_day d vals winds)) = Some NaN).
  now rewrite T1, T2, T3, R4, W1.
Qed.


(** X10.  On a table with rows whose index does not hold instants,
    [daily_summary] raises [TypeError]; the normalised table of a payload
    without a ["time"] array is such a table. *)
Theorem daily_summary_needs_time_index df :
  empty df = false ->
  (forall name tz vals, index df <> DatetimeIndex name tz vals) ->
  exn_class_of (daily_summary df) = Some TypeError.
Proof.
  intros He Hix. unfold daily_summary, resample_D_agg. rewrite He.
  destruct (index df) as [n|name tz vals|name vals]; try reflexivity.
  now destruct (Hix name tz vals).
Qed.

(** X11.  The days of the daily table are local days.  For a UTC series
    with the three measurements whose index holds an instant,
    [to_local_naive] and then [daily_summary] return a table of consecutive
    days that has a row for the day, in local wall-clock time, of every
    instant of the series. *)
Theorem daily_summary_of_local_series df name vals temps precs winds z0 :
  index df = DatetimeIndex name (Some UTC) vals -> empty df = false ->
  lookup "temperature_2m" (columns df) = Some (Float64 temps) ->
  lookup "precipitation" (columns df) = Some (Float64 precs) ->
  lookup "wind_speed_10m" (columns df) = Some (Float64 winds) ->
  In (Some z0) vals ->
  exists dl out first len,
    to_local_naive df = Ok dl
    /\ daily_summary dl = Ok out
    /\ index out
       = DatetimeIndex name None
           (map (fun k => Some ((first + Z.of_nat k) * day_ns)%Z) (seq 0 len))
    /\ Forall (fun t => match t with
                        | Some z =>
                            (first <= day_of (z + utc_offset LOCAL_TZ z)
                             < first + Z.of_nat len)%Z
                        | None => True
                        end) vals.
Proof.
  intros Hix He Ht Hp Hw Hz0.
  set (local := map (option_map (fun t => (t + utc_offset LOCAL_TZ t)%Z)) vals).
  set (dl := mkFrame (DatetimeIndex name None local) (columns df)).
  assert (Hl : to_local_naive df = Ok dl)
    by (unfold to_local_naive; now rewrite He, Hix).
  assert (He' : empty dl = false).
  { unfold empty, nrows in *. simpl. rewrite Hix in He. unfold local.
    now rewrite length_map. }
  assert (Hz1 : In (Some (z0 + utc_offset LOCAL_TZ z0)%Z) local)
    by (unfold local; apply in_map_iff; now exists (Some z0)).
  destruct (day_bins_cover local _ Hz1) as (lo & len & Hb & Hin).
  pose proof (daily_summary_ok dl name None local temps precs winds _
                eq_refl He' Ht Hp Hw Hb) as H.
  cbv zeta in H. cbn [wall_clock] in H.
  eexists dl, _, lo, len. split; [exact Hl|]. split; [exact H|]. split.
  - simpl. now rewrite map_map.
  - apply Forall_forall. intros [z|] Hz; [|exact I].
    rewrite Forall_forall in Hin. apply Hin.
    unfold days_present. apply in_flat_map.
    exists (Some (z + utc_offset LOCAL_TZ z)%Z). split; [|simpl; auto].
    unfold local. apply in_map_iff. now exists (Some z).
Qed.

End AggregatorRows.

Lemma daily_summary_one_row_per_day_witness :
  (exists out first len,
     daily_summary gap_frame = Ok out
     /\ index out
        = DatetimeIndex (Some "time") None
            (map (fun k => day_label None (first + Z.of_nat k)%Z) (seq 0 len))
     /\ nrows out = len
     /\ Forall (fun t => match t with
                         | Some z => (first <= day_of z < first + Z.of_nat len)%Z
                         | None => True
                         end) (wall_clock None (index_stamps (index gap_frame)))
     /\ Forall (fun kv => col_len (snd kv) = len) (columns out))
  /\ raises (daily_summary unparsed_frame).
Proof.
  split.
  - apply (proj1 (daily_summary_one_row_per_day gap_frame (Some "time") None
                    (index_stamps (index gap_frame))
                    [Val 70; Val 72; Val 68] [Val 0; Val 1; Val 0] [Val 2; NaN; Val 3]
                    eq_refl eq_refl eq_refl eq_refl eq_refl)
                 (20335 * day_ns)%Z).
    simpl. auto.
  - apply (proj2 (daily_summary_one_row_per_day unparsed_frame (Some "time") None
                    (index_stamps (index unparsed_frame))
                    [Val 70; Val 72] [Val 0; Val 1] [Val 2; Val 3]
                    eq_refl eq_refl eq_refl eq_refl eq_refl)).
    repeat constructor.
Defined.

Lemma daily_summary_day_without_values_witness :
  daily_summary gap_frame = Ok gap_daily
  /\ float_at gap_daily "temperature_2m_mean" 1 = Some NaN
  /\ float_at gap_daily "temperature_2m_min" 1 = Some NaN
  /\ float_at gap_daily "temperature_2m_max" 1 = Some NaN
  /\ float_at gap_daily "precipitation_sum" 1 = Some (Val 0)
  /\ float_at gap_daily "wind_speed_10m_mean" 1 = Some NaN.
Proof.
  split; [reflexivity|].
  apply (daily_summary_day_without_values gap_frame (Some "time")
           (index_stamps (index gap_frame))
           [Val 70; Val 72; Val 68] [Val 0; Val 1; Val 0] [Val 2; NaN; Val 3]
           gap_daily 1 20336%Z); try reflexivity.
  intros i z Hi Hd. exfalso.
  destruct i as [|[|[|i]]]; simpl in Hi;
    [ | | | destruct i; discriminate Hi ];
    injection Hi as Hz; rewrite <- Hz in Hd; vm_compute in Hd; discriminate Hd.
Defined.


Lemma daily_summary_needs_time_index_witness :
  exn_class_of
    (daily_summary (plain_frame 3 [("temperature_2m", [CNum 70; CStr "n/a"; CNum 68])]))
  = Some TypeError.
Proof.
  apply daily_summary_needs_time_index; [reflexivity|discriminate].
Defined.

Lemma daily_summary_of_local_series_witness :
  exists dl out first len,
    to_local_naive night_frame = Ok dl
    /\ daily_summary dl = Ok out
    /\ index out
       = DatetimeIndex (Some "time") None
           (map (fun k => Some ((first + Z.of_nat k) * day_ns)%Z) (seq 0 len))
    /\ Forall (fun t => match t with
                        | Some z =>
                            (first <= day_of (z + utc_offset LOCAL_TZ z)
                             < first + Z.of_nat len)%Z
                        | None => True
                        end) (index_stamps (index night_frame)).
Proof.
  apply (daily_summary_of_local_series night_frame (Some "time")
           (index_stamps (index night_frame))
           [Val 60; Val 58] [Val 0; Val 0] [Val 2; Val 3]
           (20335 * day_ns + 3 * hour_ns)%Z); try reflexivity.
  simpl. auto.
Defined.

(** ** More on the anomaly scorer *)

(** A result of the scorer on a series with samples holds the score of
    every position. *)
Lemma rolling_anomaly_scores (S : Series num) (W : Z) out :
  rolling_anomaly (Some S) W = Ok (Some out) -> s_values S <> [] ->
  (4 <= W)%Z
  /\ forall i, i < List.length (s_values S) ->
       nth i (s_values out) Missing = score_at (s_values S) W i.
Proof.
  intros Hout Hne.
  destruct (Z.lt_ge_cases W 4) as [HW|HW].
  { destruct (rolling_anomaly_raises S W Hne HW) as [e He]. congruence. }
  destruct (rolling_anomaly_ok S W Hne HW) as (out' & H & _ & _ & Hnth).
  assert (out' = out) by congruence. subst out'. split; [lia|exact Hnth].
Qed.

Lemma length_positive {A} (l : list A) i : i < List.length l -> l <> [].
Proof. destruct l; simpl; [lia|discriminate]. Qed.

(** The window that ends at position [i] holds at most [i + 1] samples. *)
Lemma window_length vals W i : List.length (window vals W i) <= i + 1.
Proof.
  unfold window. rewrite length_skipn, length_firstn. lia.
Qed.

Lemma count_valid_le vs : count_valid vs <= List.length vs.
Proof. rewrite count_valid_filter. apply filter_length_le. Qed.

(** The window of a position does not reach into samples that come
    later. *)
Lemma window_app vals more W i :
  i < List.length vals -> window (vals ++ more) W i = window vals W i.
Proof.
  intro Hi. unfold window. rewrite firstn_app.
  replace (i + 1 - List.length vals) with 0 by lia.
  simpl. now rewrite app_nil_r.
Qed.

(** X12.  The first [max(4, W // 4) - 1] scores are missing whatever the
    samples are: the window of such a position cannot hold enough of
    them. *)
Theorem rolling_anomaly_warm_up (S : Series num) (W : Z) out i :
  rolling_anomaly (Some S) W = Ok (Some out) ->
  i < List.length (s_values S) ->
  (Z.of_nat (i + 1) < min_periods W)%Z ->
  nth i (s_values out) Missing = Missing.
Proof.
  intros Hout Hi Hlow.
  destruct (rolling_anomaly_scores S W out Hout (length_positive _ i Hi)) as [HW Hnth].
  rewrite (Hnth i Hi).
  apply score_at_below_min_periods; [lia|exact Hi|].
  rewrite valid_in_trailing_window by (lia || exact Hi).
  pose proof (count_valid_le (window (s_values S) (Z.to_nat W) i)).
  pose proof (window_length (s_values S) (Z.to_nat W) i).
  lia.
Qed.

(** X13.  Where the sample itself is missing the score is missing, however
    many valid samples surround it. *)
Theorem rolling_anomaly_missing_sample (S : Series num) (W : Z) out i :
  rolling_anomaly (Some S) W = Ok (Some out) ->
  i < List.length (s_values S) ->
  nth i (s_values S) NaN = NaN ->
  nth i (s_values out) Missing = Missing.
Proof.
  intros Hout Hi Hs.
  destruct (rolling_anomaly_scores S W out Hout (length_positive _ i Hi)) as [_ Hnth].
  rewrite (Hnth i Hi). unfold score_at. now rewrite Hs.
Qed.

(** X14.  Samples that are appended to a series leave the scores of the
    earlier positions as they were. *)
Theorem rolling_anomaly_append (S : Series num) (more : list num) (W : Z) out out' i :
  rolling_anomaly (Some S) W = Ok (Some out) ->
  rolling_anomaly (Some (mkSeries (s_index S) (s_values S ++ more))) W = Ok (Some out') ->
  i < List.length (s_values S) ->
  nth i (s_values out') Missing = nth i (s_values out) Missing.
Proof.
  intros Hout Hout' Hi.
  destruct (rolling_anomaly_scores S W out Hout (length_positive _ i Hi)) as [_ Hnth].
  assert (Hi' : i < List.length (s_values S ++ more)) by (rewrite length_app; lia).
  destruct (rolling_anomaly_scores _ W out' Hout' (length_positive _ i Hi')) as [_ Hnth'].
  rewrite (Hnth i Hi), (Hnth' i Hi'). cbn [s_values].
  unfold score_at, mean_at, std_at.
  now rewrite (window_app _ more _ i Hi), app_nth1 by exact Hi.
Qed.

Lemma rolling_anomaly_warm_up_witness :
  rolling_anomaly (Some step_series) 4 = Ok (Some step_scores)
  /\ nth 2 (s_values step_scores) Missing = Missing.
Proof.
  split; [reflexivity|].
  apply (rolling_anomaly_warm_up step_series 4 step_scores 2).
  - reflexivity.
  - simpl. lia.
  - reflexivity.
Defined.

Lemma rolling_anomaly_missing_sample_witness :
  rolling_anomaly (Some holed_series) 5 = Ok (Some holed_scores)
  /\ nth 4 (s_values holed_scores) Missing = Missing.
Proof.
  split; [reflexivity|].
  apply (rolling_anomaly_missing_sample holed_series 5 holed_scores 4).
  - reflexivity.
  - simpl. lia.
  - reflexivity.
Defined.

Lemma rolling_anomaly_append_witness :
  rolling_anomaly (Some (mkSeries (RangeIndex 5) (s_values step_series ++ [Val 100]))) 4
  = Ok (Some longer_step_scores)
  /\ nth 4 (s_values longer_step_scores) Missing = nth 4 (s_values step_scores) Missing.
Proof.
  split; [reflexivity|].
  apply (rolling_anomaly_append step_series [Val 100] 4 step_scores longer_step_scores 4).
  - reflexivity.
  - reflexivity.
  - simpl. lia.
Defined.

(** ** Cache files and locations *)

Lemma has_char_app c s t : has_char c (s ++ t) = has_char c s || has_char c t.
Proof.
  induction s as [|x s IH]; simpl; [reflexivity|]. now rewrite IH, orb_assoc.
Qed.

Lemma string_of_digits_plain d : has_char "_" (NilEmpty.string_of_uint d) = false.
Proof. induction d; simpl; auto. Qed.

Lemma string_of_uint_plain d : has_char "_" (NilZero.string_of_uint d) = false.
Proof. destruct d; try apply string_of_digits_plain. reflexivity. Qed.

Lemma has_char_drop_first c s : has_char c s = false -> has_char c (drop_first s) = false.
Proof.
  destruct s as [|x s]; simpl; [auto|]. intro H. now apply orb_false_iff in H.
Qed.

(** A coordinate is written with a sign, digits and a point. *)
Lemma fixed4_plain x : has_char "_" (fixed4 x) = false.
Proof.
  unfold fixed4, string_of_nat. rewrite !has_char_app.
  rewrite string_of_uint_plain, has_char_drop_first by apply string_of_uint_plain.
  now destruct (Qle_bool 0 x).
Qed.

(** Two texts that are cut at their first separator have equal parts. *)
Lemma append_separator_inj c a a' r r' :
  has_char c a = false -> has_char c a' = false ->
  (a ++ String c r = a' ++ String c r')%string -> a = a' /\ r = r'.
Proof.
  revert a'. induction a as [|x a IH]; intros [|x' a'] Ha Ha' E; simpl in *.
  - split; [reflexivity|congruence].
  - apply orb_false_iff in Ha' as [Hx _]. inversion E; subst.
    now rewrite Ascii.eqb_refl in Hx.
  - apply orb_false_iff in Ha as [Hx _]. inversion E; subst.
    now rewrite Ascii.eqb_refl in Hx.
  - apply orb_false_iff in Ha as [_ Ha]. apply orb_false_iff in Ha' as [_ Ha'].
    inversion E; subst. destruct (IH a' Ha Ha' H1) as [-> ->]. now split.
Qed.

Lemma string_length_app (s t : string) :
  String.length (s ++ t) = String.length s + String.length t.
Proof. induction s as [|x s IH]; simpl; [reflexivity|]. now rewrite IH. Qed.

Lemma append_inj_r (s s' t : string) : (s ++ t = s' ++ t)%string -> s = s'.
Proof.
  revert s'. induction s as [|x s IH]; intros [|x' s'] E; simpl in *.
  - reflexivity.
  - apply (f_equal String.length) in E. simpl in E. rewrite string_length_app in E. lia.
  - apply (f_equal String.length) in E. simpl in E. rewrite string_length_app in E. lia.
  - inversion E; subst. f_equal. now apply IH.
Qed.

Lemma cache_path_parts lat lon lat' lon' :
  cache_path lat lon = cache_path lat' lon' ->
  fixed4 lat = fixed4 lat' /\ fixed4 lon = fixed4 lon'.
Proof.
  unfold cache_path, DATA_DIR. intro E. cbn [append] in E.
  injection E as E.
  apply append_separator_inj in E; try apply fixed4_plain.
  destruct E as [E1 E2]. split; [exact E1|]. now apply append_inj_r in E2.
Qed.

(** X15.  Two locations have the same cache file exactly when both of their
    coordinates are written alike with four decimals. *)
Theorem cache_path_injective lat lon lat' lon' :
  cache_path lat lon = cache_path lat' lon'
  <-> fixed4 lat = fixed4 lat' /\ fixed4 lon = fixed4 lon'.
Proof.
  split; [apply cache_path_parts|].
  intros [E1 E2]. unfold cache_path. now rewrite E1, E2.
Qed.

Section CacheExtras.
Context {P : Pandas}.


(** No header label that the reader makes up is ["time"]. *)
Lemma position_time_absent (h : list string) s :
  ~ In "time" h ->
  position "time"
    (map (fun il : nat * string =>
            if String.eqb (snd il) ""
            then ("Unnamed: " ++ string_of_nat (fst il))%string
            else snd il)
         (combine (seq s (List.length h)) h)) = None.
Proof.
  revert s. induction h as [|x h IH]; intros s Hn; [reflexivity|].
  cbn [List.length seq combine map position fst snd].
  rewrite IH by (intro; apply Hn; now right).
  destruct (String.eqb x "") eqn:Ex; [reflexivity|].
  destruct (String.eqb "time" x) eqn:Et; [|reflexivity].
  apply String.eqb_eq in Et. exfalso. apply Hn. now left.
Qed.

Lemma lookup_none_not_in {A} k (l : list (string * A)) :
  lookup k l = None -> ~ In k (map fst l).
Proof.
  induction l as [|[k' v] l IH]; simpl; [tauto|].
  destruct (String.eqb k k') eqn:E; [discriminate|].
  apply String.eqb_neq in E. intros H [H'|H']; [congruence|now apply IH].
Qed.

(** X17.  The table that the normaliser builds from a payload without a
    ["time"] array can be saved but not loaded: the file has no ["time"]
    column, and [load_cache] raises [ValueError]. *)
Theorem load_cache_needs_time_column js data n lat lon fs :
  hourly js = Some data -> data <> [] -> rectangular n data ->
  lookup "time" data = None ->
  exists df,
    hourly_to_frame (ArgDict js) = Ok df
    /\ exn_class_of (load_cache lat lon (save_cache df lat lon fs)) = Some ValueError.
Proof.
  intros Hh Hne Hrect Ht. exists (plain_frame n data).
  split; [now apply hourly_to_frame_plain|].
  unfold load_cache, save_cache. rewrite fs_write_same.
  unfold read_csv, fix_labels.
  rewrite (position_time_absent (header (to_csv (plain_frame n data))) 0);
    [reflexivity|].
  unfold to_csv, plain_frame, col_names. cbn [header index columns index_label].
  rewrite map_map. cbn [fst].
  intros [H|H]; [discriminate|]. now apply (lookup_none_not_in "time" data Ht).
Qed.

End CacheExtras.


Lemma load_cache_needs_time_column_witness :
  exists df,
    hourly_to_frame (ArgDict example_plain_payload) = Ok df
    /\ exn_class_of
         (load_cache (fst grand_junction) (snd grand_junction)
            (save_cache df (fst grand_junction) (snd grand_junction) no_files))
       = Some ValueError.
Proof.
  apply (load_cache_needs_time_column example_plain_payload
           [("temperature_2m", [CNum 70; CStr "n/a"; CNum 68])] 3).
  - reflexivity.
  - discriminate.
  - repeat constructor.
  - reflexivity.
Defined.

(** ** The display of a normalised series *)

Section DisplayExtras.
Context {P : Pandas}.

Lemma sanitize_numeric_columns (cols : list (string * Column)) :
  Forall (fun kv => exists vs, snd kv = Float64 vs) cols ->
  map (fun kv => (fst kv, strip_timezone (promote_text (snd kv)))) cols = cols.
Proof.
  induction 1 as [|[k c] cols [vs Hc] _ IH]; [reflexivity|].
  simpl in *. subst c. simpl. now rewrite IH.
Qed.

Lemma measurement_columns_no_time df :
  measurement_columns df -> has_key "time" (columns df) = false.
Proof.
  intros [_ H]. unfold has_key.
  induction H as [|[k c] cols (vs & _ & _ & _ & Hk) _ IH]; [reflexivity|].
  cbn [lookup]. cbn [fst] in Hk.
  destruct (String.eqb "time" k) eqn:E; [|exact IH].
  apply String.eqb_eq in E. congruence.
Qed.

(** X18.  For a normalised series with rows, the local-time conversion
    and the display sanitiser both return, whatever the date parser and the
    zone database do: the displayed table has the local wall-clock instants
    as its leading ["time"] column and the measurements as they were. *)
Theorem display_of_normalized_series df vals :
  normalized_utc df -> empty df = false ->
  index df = DatetimeIndex (Some "time") (Some UTC) vals ->
  let local := map (option_map (fun t => (t + utc_offset LOCAL_TZ t)%Z)) vals in
  to_local_naive df = Ok (mkFrame (DatetimeIndex (Some "time") None local) (columns df))
  /\ arrow_safe_df (mkFrame (DatetimeIndex (Some "time") None local) (columns df))
     = Ok (mkFrame (RangeIndex (nrows df))
                   (("time", Datetime64 None local) :: columns df)).
Proof.
  intros [_ Hcols] He Hix local.
  assert (Hl : to_local_naive df
               = Ok (mkFrame (DatetimeIndex (Some "time") None local) (columns df))).
  { unfold to_local_naive. now rewrite He, Hix. }
  split; [exact Hl|].
  assert (He' : empty (mkFrame (DatetimeIndex (Some "time") None local) (columns df))
                = false).
  { unfold empty, nrows in *. simpl. rewrite Hix in He. unfold local.
    now rewrite length_map. }
  unfold arrow_safe_df. rewrite He'.
  rewrite reset_index_ok
    by (simpl; now apply measurement_columns_no_time).
  cbn [bind index columns reset_label index_name column_of_index map fst snd
       promote_text strip_timezone].
  rewrite sanitize_numeric_columns.
  - unfold nrows. simpl. rewrite Hix. unfold local. now rewrite length_map.
  - destruct Hcols as [_ Hf]. eapply Forall_impl; [|exact Hf].
    intros kv (vs & Hv & _). now exists vs.
Qed.

(** X19.  A table over row numbers, such as the scripts pass for their
    charts after their own [reset_index], gets its row numbers as a new
    leading ["index"] column: the sanitiser resets the index once more. *)
Theorem arrow_safe_df_row_numbers n cols :
  n <> 0 -> cols <> [] -> has_key "index" cols = false ->
  exists rest,
    arrow_safe_df (mkFrame (RangeIndex n) cols)
    = Ok (mkFrame (RangeIndex n)
            (("index", Float64 (map (fun i => Val (inject_Z (Z.of_nat i))) (seq 0 n)))
               :: rest))
    /\ map fst rest = map fst cols.
Proof.
  intros Hn Hc Hk. unfold arrow_safe_df.
  assert (He : empty (mkFrame (RangeIndex n) cols) = false).
  { unfold empty, nrows. simpl. apply orb_false_iff.
    split; apply Nat.eqb_neq; [exact Hn|]. destruct cols; simpl; congruence. }
  rewrite He.
  assert (Hl : reset_label (mkFrame (RangeIndex n) cols) = "index")
    by (unfold reset_label; simpl; now rewrite Hk).
  rewrite reset_index_ok by (now rewrite Hl).
  rewrite Hl. simpl. eexists. split; [reflexivity|].
  rewrite map_map. reflexivity.
Qed.

End DisplayExtras.

(** ** Runs of the fetch-and-cache block *)

Section DriverExtras.
Context {P : Pandas}.

(** The normaliser looks at the hourly block only. *)
Lemma hourly_to_frame_hourly js url :
  hourly_to_frame (ArgDict (mkPayload (hourly js) url)) = hourly_to_frame (ArgDict js).
Proof. reflexivity. Qed.

Lemma fetch_and_save_answer net lat lon days fs js :
  net (open_meteo_url lat lon (days * 24)) = Ok js ->
  fetch_and_save net lat lon days fs
  = (df_utc <- hourly_to_frame (ArgDict js) ;;
     Ok (df_utc, save_cache df_utc lat lon fs)).
Proof.
  intro Hnet. unfold fetch_and_save, fetch_hourly_json. rewrite Hnet.
  cbn [bind]. now rewrite hourly_to_frame_hourly.
Qed.

Lemma drivers_continue net lat lon days fs js df :
  net (open_meteo_url lat lon (days * 24)) = Ok js ->
  hourly_to_frame (ArgDict js) = Ok df ->
  fetch_py_driver net lat lon days fs = Continue df (save_cache df lat lon fs) []
  /\ app_streamlit_driver net lat lon days fs
     = Continue df (save_cache df lat lon fs) [].
Proof.
  intros Hnet Hdf. unfold fetch_py_driver, app_streamlit_driver.
  rewrite (fetch_and_save_answer net lat lon days fs js Hnet), Hdf. now split.
Qed.

(** X20.  When the provider answers and the normaliser returns, both
    scripts go on with the normalised table, show no message and have
    written that table to the cache file of the location; the table is not
    tested for emptiness on this path. *)
Theorem drivers_on_success net lat lon days fs js df :
  net (open_meteo_url lat lon (days * 24)) = Ok js ->
  hourly_to_frame (ArgDict js) = Ok df ->
  exists fs',
    fetch_py_driver net lat lon days fs = Continue df fs' []
    /\ app_streamlit_driver net lat lon days fs = Continue df fs' []
    /\ fs' (cache_path lat lon) = Some (to_csv df)
    /\ forall p, p <> cache_path lat lon -> fs' p = fs p.
Proof.
  intros Hnet Hdf. exists (save_cache df lat lon fs).
  destruct (drivers_continue net lat lon days fs js df Hnet Hdf) as [H1 H2].
  split; [exact H1|]. split; [exact H2|]. unfold save_cache. split.
  - apply fs_write_same.
  - intros p Hp. unfold fs_write.
    destruct (String.eqb p (cache_path lat lon)) eqn:E; [|reflexivity].
    apply String.eqb_eq in E. contradiction.
Qed.

(** X21.  An answer that the normaliser refuses is handled like a failed
    request: nothing is written, the message of the exception is shown,
    and [fetch.py] goes on with the cached series or stops when there is no
    cache file. *)
Theorem refused_answer_falls_back net lat lon days fs js e :
  net (open_meteo_url lat lon (days * 24)) = Ok js ->
  hourly_to_frame (ArgDict js) = Raise e ->
  (forall S, fs (cache_path lat lon) = Some (to_csv S) ->
             normalized_utc S -> empty S = false ->
             fetch_py_driver net lat lon days fs
             = Continue S fs [StError ("Fetch error: " ++ exn_str e)%string])
  /\ (fs (cache_path lat lon) = None ->
      fetch_py_driver net lat lon days fs
      = Stopped fs [StError ("Fetch error: " ++ exn_str e)%string]).
Proof.
  intros Hnet Hdf.
  assert (Hf : fetch_and_save net lat lon days fs = Raise e)
    by (now rewrite (fetch_and_save_answer net lat lon days fs js Hnet), Hdf).
  unfold fetch_py_driver. rewrite Hf. split.
  - intros S Hs Hn He. now rewrite (load_cached_series lat lon fs S Hs Hn He), He.
  - intro Hs. unfold load_cache. now rewrite Hs.
Qed.

Lemma time_frame_not_empty data tcol n m :
  rectangular n data -> n <> 0 -> lookup "time" data = Some tcol ->
  m <> "time" -> In m (map fst data) ->
  empty (time_frame data tcol) = false.
Proof.
  intros Hrect Hn Ht Hm Hin. unfold empty, nrows, time_frame. simpl.
  rewrite take_length, argsort_length, !length_map.
  rewrite (lookup_length "time" data tcol n Hrect Ht).
  apply orb_false_iff. split; apply Nat.eqb_neq; [exact Hn|].
  apply in_map_iff in Hin. destruct Hin as (kv & Hk & Hin).
  assert (Hd : In kv (drop_col "time" data)).
  { apply filter_In. split; [exact Hin|]. rewrite Hk.
    apply negb_true_iff, String.eqb_neq. congruence. }
  destruct (drop_col "time" data); [destruct Hd|discriminate].
Qed.

(** X22.  Last known good series in [fetch.py]: after a run that fetched a
    block of distinct, named measurements with a ["time"] array and at
    least one row, a run whose request fails goes on with the very table of
    the earlier run, and leaves the cache as it is. *)
Theorem fetch_py_last_known_good net net' lat lon days days' fs js data tcol n m e :
  net (open_meteo_url lat lon (days * 24)) = Ok js ->
  hourly js = Some data -> rectangular n data -> n <> 0 ->
  lookup "time" data = Some tcol ->
  NoDup (map fst data) -> ~ In "" (map fst data) ->
  m <> "time" -> In m (map fst data) ->
  net' (open_meteo_url lat lon (days' * 24)) = Raise e ->
  exists df fs1,
    fetch_py_driver net lat lon days fs = Continue df fs1 []
    /\ fetch_py_driver net' lat lon days' fs1
       = Continue df fs1 [StError ("Fetch error: " ++ exn_str e)%string].
Proof.
  intros Hnet Hh Hrect Hn Ht Hnd Hnamed Hm Hin Hnet'.
  assert (Hne : data <> []) by (intros ->; discriminate).
  pose proof (hourly_to_frame_time js data tcol n Hh Hne Hrect Ht) as Hdf.
  exists (time_frame data tcol), (save_cache (time_frame data tcol) lat lon fs).
  split; [exact (proj1 (drivers_continue net lat lon days fs js _ Hnet Hdf))|].
  apply (proj1 (fetch_py_driver_fallback net' lat lon days' _ e Hnet')).
  - unfold save_cache. apply fs_write_same.
  - now apply time_frame_normalized.
  - exact (time_frame_not_empty data tcol n m Hrect Hn Ht Hm Hin).
Qed.

Lemma load_saved_empty_frame lat lon fs :
  load_cache lat lon (save_cache empty_frame lat lon fs)
  = Raise (PyExc ValueError "Missing column provided to 'parse_dates'").
Proof.
  unfold load_cache, save_cache. now rewrite fs_write_same.
Qed.

(** X23.  An answer without hourly data is saved like any other: both
    scripts go on with the empty table and write it to the cache file.  A
    later run whose request fails then finds a file that [load_cache]
    cannot read, and both scripts end in its [ValueError] after the
    fetch-error message, instead of stopping. *)
Theorem empty_answer_spoils_cache net net' lat lon days days' fs js e :
  net (open_meteo_url lat lon (days * 24)) = Ok js ->
  hourly js = None \/ hourly js = Some [] ->
  net' (open_meteo_url lat lon (days' * 24)) = Raise e ->
  exists fs1 e',
    fetch_py_driver net lat lon days fs = Continue empty_frame fs1 []
    /\ app_streamlit_driver net lat lon days fs = Continue empty_frame fs1 []
    /\ exn_class e' = ValueError
    /\ fetch_py_driver net' lat lon days' fs1
       = Crashed e' fs1 [StError ("Fetch error: " ++ exn_str e)%string]
    /\ app_streamlit_driver net' lat lon days' fs1
       = Crashed e' fs1 [StError ("Fetch error: " ++ exn_str e)%string].
Proof.
  intros Hnet Hh Hnet'.
  assert (Hdf : hourly_to_frame (ArgDict js) = Ok empty_frame).
  { unfold hourly_to_frame, get_hourly. now destruct Hh as [-> | ->]. }
  destruct (drivers_continue net lat lon days fs js empty_frame Hnet Hdf) as [H1 H2].
  exists (save_cache empty_frame lat lon fs),
         (PyExc ValueError "Missing column provided to 'parse_dates'").
  split; [exact H1|]. split; [exact H2|]. split; [reflexivity|].
  unfold fetch_py_driver, app_streamlit_driver.
  rewrite (fetch_failure net' lat lon days' _ e Hnet').
  now rewrite load_saved_empty_frame.
Qed.

End DriverExtras.

Lemma display_of_normalized_series_witness :
  let local :=
    map (option_map (fun t => (t + utc_offset LOCAL_TZ t)%Z))
        [Some 1756944000000000000%Z; Some 1756947600000000000%Z; None] in
  to_local_naive example_frame
  = Ok (mkFrame (DatetimeIndex (Some "time") None local) (columns example_frame))
  /\ arrow_safe_df (mkFrame (DatetimeIndex (Some "time") None local)
                            (columns example_frame))
     = Ok (mkFrame (RangeIndex (nrows example_frame))
                   (("time", Datetime64 None local) :: columns example_frame)).
Proof.
  apply (display_of_normalized_series example_frame
           [Some 1756944000000000000%Z; Some 1756947600000000000%Z; None]).
  - apply example_frame_normalized.
  - reflexivity.
  - reflexivity.
Defined.

Lemma arrow_safe_df_row_numbers_witness :
  exists rest,
    arrow_safe_df (mkFrame (RangeIndex 2) [("t", Datetime64 None [Some 0%Z; None])])
    = Ok (mkFrame (RangeIndex 2)
            (("index", Float64 (map (fun i => Val (inject_Z (Z.of_nat i))) (seq 0 2)))
               :: rest))
    /\ map fst rest = map fst [("t", Datetime64 None [Some 0%Z; None])].
Proof.
  apply (arrow_safe_df_row_numbers 2 [("t", Datetime64 None [Some 0%Z; None])]).
  - discriminate.
  - discriminate.
  - reflexivity.
Defined.

Lemma drivers_on_success_witness :
  exists fs',
    fetch_py_driver (provider example_payload) (fst grand_junction) (snd grand_junction)
                    7 no_files
    = Continue example_frame fs' []
    /\ app_streamlit_driver (provider example_payload) (fst grand_junction)
                            (snd grand_junction) 7 no_files
       = Continue example_frame fs' []
    /\ fs' (cache_path (fst grand_junction) (snd grand_junction))
       = Some (to_csv example_frame)
    /\ forall p, p <> cache_path (fst grand_junction) (snd grand_junction) ->
                 fs' p = no_files p.
Proof.
  apply (drivers_on_success (provider example_payload) (fst grand_junction)
           (snd grand_junction) 7 no_files example_payload example_frame).
  - reflexivity.
  - vm_compute. reflexivity.
Defined.

Lemma refused_answer_falls_back_witness :
  fetch_py_driver (provider ragged_payload) (fst grand_junction) (snd grand_junction)
                  7 no_files
  = Stopped no_files [StError "Fetch error: All arrays must be of the same length"].
Proof.
  apply (proj2 (refused_answer_falls_back (provider ragged_payload)
                  (fst grand_junction) (snd grand_junction) 7 no_files ragged_payload
                  (PyExc ValueError "All arrays must be of the same length")
                  eq_refl eq_refl)).
  reflexivity.
Defined.

Lemma fetch_py_last_known_good_witness :
  exists df fs1,
    fetch_py_driver (provider example_payload) (fst grand_junction)
                    (snd grand_junction) 7 no_files
    = Continue df fs1 []
    /\ fetch_py_driver unreachable (fst grand_junction) (snd grand_junction) 3 fs1
       = Continue df fs1 [StError ("Fetch error: "
                                   ++ exn_str (PyExc RequestException
                                                 "connection timed out"))%string].
Proof.
  apply (fetch_py_last_known_good (provider example_payload) unreachable
           (fst grand_junction) (snd grand_junction) 7 3 no_files example_payload
           [ ("time", [CStr "not a date"; CStr "2025-09-04T01:00"; CStr "2025-09-04T00:00"]);
             ("temperature_2m", [CNum 70; CStr "n/a"; CNum 68]) ]
           [CStr "not a date"; CStr "2025-09-04T01:00"; CStr "2025-09-04T00:00"] 3
           "temperature_2m" (PyExc RequestException "connection timed out")).
  - reflexivity.
  - reflexivity.
  - repeat constructor.
  - discriminate.
  - reflexivity.
  - repeat constructor; simpl; intuition discriminate.
  - simpl. intuition discriminate.
  - discriminate.
  - simpl. auto.
  - reflexivity.
Defined.

Lemma empty_answer_spoils_cache_witness :
  exists fs1 e',
    fetch_py_driver (provider bare_payload) (fst grand_junction) (snd grand_junction)
                    7 no_files
    = Continue empty_frame fs1 []
    /\ app_streamlit_driver (provider bare_payload) (fst grand_junction)
                            (snd grand_junction) 7 no_files
       = Continue empty_frame fs1 []
    /\ exn_class e' = ValueError
    /\ fetch_py_driver unreachable (fst grand_junction) (snd grand_junction) 7 fs1
       = Crashed e' fs1 [StError ("Fetch error: "
                                  ++ exn_str (PyExc RequestException
                                                "connection timed out"))%string]
    /\ app_streamlit_driver unreachable (fst grand_junction) (snd grand_junction) 7 fs1
       = Crashed e' fs1 [StError ("Fetch error: "
                                  ++ exn_str (PyExc RequestException
                                                "connection timed out"))%string].
Proof.
  apply (empty_answer_spoils_cache (provider bare_payload) unreachable
           (fst grand_junction) (snd grand_junction) 7 7 no_files bare_payload
           (PyExc RequestException "connection timed out")).
  - reflexivity.
  - left. reflexivity.
  - reflexivity.
Defined.
